(** * Kontent.ai MCP server: per-request tenant isolation

    A shallow embedding of the three components that carry a tenant
    identity from the transport boundary to the Management API client:

    - [Auth]: the Express middleware [authMiddleware]
      (src/middleware/auth.ts);
    - [Ctx]: the request context carrier built on Node's
      [AsyncLocalStorage] (src/context/requestContext.ts);
    - [Mapi]: the client factory [createMapiClient].

    [Bin] is their caller, src/bin.ts: the routes of the two HTTP
    transports and the entry point.  [Loop] is the runtime they run on: a run-to-completion event loop on
    which the continuations of several request handlers interleave.

    JavaScript strings are modelled by [string]; every operation used by
    the code ([startsWith] with an ASCII needle, [substring] from a fixed
    index, truthiness) acts on code units and is encoding independent.
    A value of type [string | undefined] is an [option string]. *)

From Stdlib Require Import ZArith.
From stdpp Require Import gmap strings list fin_maps.

Local Open Scope string_scope.

(** ** JavaScript primitives used by the code *)

Module Js.

(** [!v] for [v : string | undefined]: [undefined] and the empty string
    are the falsy values. *)
Definition falsy (v : option string) : bool :=
  match v with
  | None => true
  | Some "" => true
  | Some (String _ _) => false
  end.

(** [a ?? b]: the right operand is taken only when the left one is
    nullish; an empty string is not nullish. *)
Definition nullish (a b : option string) : option string :=
  match a with
  | Some v => Some v
  | None => b
  end.

(** [s.startsWith(p)]. *)
Fixpoint startsWith (p s : string) : bool :=
  match p, s with
  | "", _ => true
  | String a p', String b s' =>
      if Ascii.eqb a b then startsWith p' s' else false
  | String _ _, "" => false
  end.

(** [s.substring(n)]: the code units from index [n] on; an index past
    the end gives the empty string. *)
Fixpoint substring (n : nat) (s : string) : string :=
  match n, s with
  | O, _ => s
  | S n', String _ s' => substring n' s'
  | S _, "" => ""
  end.

End Js.

Infix "??" := Js.nullish (at level 45, right associativity).

(** ** The credential extractor: src/middleware/auth.ts *)

Module Auth.

(** [AuthRequest]: an Express request with the two optional fields the
    middleware attaches.  Node lower-cases header names, hence the keys
    ["authorization"] and ["x-environment-id"]; for these two headers a
    present value is always a single string. *)
Record AuthRequest := mkAuthRequest {
  headers : gmap string string;
  apiKey : option string;
  environmentId : option string
}.

(** The JSON-RPC error envelope written by [res.json]; its [id] is
    always [null], modelled by [None]. *)
Record ErrorBody := mkErrorBody {
  code : Z;
  message : string
}.

Record Envelope := mkEnvelope {
  jsonrpc : string;
  error : ErrorBody;
  id : option Z
}.

(** The part of the Express response the middleware touches. *)
Record Response := mkResponse {
  statusCode : Z;
  body : option Envelope
}.

Definition freshResponse : Response := mkResponse 200 None.

(** [res.status(c).json(b)]. *)
Definition status_json (c : Z) (b : Envelope) (res : Response) : Response :=
  mkResponse c (Some b).

(** What a run of the middleware leaves behind: the request record, the
    response, and whether [next()] was called. *)
Record Outcome := mkOutcome {
  req_after : AuthRequest;
  res_after : Response;
  next_called : bool
}.

Definition set_apiKey (t : string) (req : AuthRequest) : AuthRequest :=
  mkAuthRequest (headers req) (Some t) (environmentId req).

Definition set_environmentId (e : string) (req : AuthRequest) : AuthRequest :=
  mkAuthRequest (headers req) (apiKey req) (Some e).

Definition bearerRequired : Envelope :=
  mkEnvelope "2.0" (mkErrorBody (-32001) "Unauthorized: Bearer token required") None.

Definition invalidBearer : Envelope :=
  mkEnvelope "2.0" (mkErrorBody (-32001) "Unauthorized: Invalid Bearer token") None.

Definition environmentRequired : Envelope :=
  mkEnvelope "2.0"
    (mkErrorBody (-32602) "Bad Request: X-Environment-ID header required") None.

Definition authMiddleware (req : AuthRequest) (res : Response) : Outcome :=
  let authHeader := headers req !! "authorization" in
  if Js.falsy authHeader
     || negb (Js.startsWith "Bearer " (default "" authHeader))
  then mkOutcome req (status_json 401 bearerRequired res) false
  else
    let token := Js.substring 7 (default "" authHeader) in
    if Js.falsy (Some token)
    then mkOutcome req (status_json 401 invalidBearer res) false
    else
      let req1 := set_apiKey token req in
      let environmentId := headers req1 !! "x-environment-id" in
      if Js.falsy environmentId
      then mkOutcome req1 (status_json 400 environmentRequired res) false
      else
        mkOutcome (set_environmentId (default "" environmentId) req1) res true.

End Auth.

(** Vocabulary for statements about the middleware. *)

Module AuthSpec.
Import Auth.

(** The request is answered with HTTP status [st] and the JSON-RPC error
    envelope [(c, msg)] with a null id, and [next()] is not called. *)
Definition rejected_with (o : Outcome) (st c : Z) (msg : string) : Prop :=
  next_called o = false
  ∧ res_after o = mkResponse st (Some (mkEnvelope "2.0" (mkErrorBody c msg) None)).

(** The Authorization header is absent or does not start with the
    scheme marker. *)
Definition no_bearer (req : AuthRequest) : Prop :=
  headers req !! "authorization" = None
  ∨ ∃ h, headers req !! "authorization" = Some h
         ∧ Js.startsWith "Bearer " h = false.

(** The Authorization header is the scheme marker followed by [rest]. *)
Definition bearer (req : AuthRequest) (rest : string) : Prop :=
  headers req !! "authorization" = Some ("Bearer " ++ rest).

(** The X-Environment-ID header is absent or empty. *)
Definition no_environment (req : AuthRequest) : Prop :=
  headers req !! "x-environment-id" = None
  ∨ headers req !! "x-environment-id" = Some "".

(** A request as the transport hands it to the middleware: nothing
    attached yet. *)
Definition incoming (h : gmap string string) : AuthRequest :=
  mkAuthRequest h None None.

(** "Trimmed", in the words of the specification: what
    [String.prototype.trim] does on the code units below 128, where the
    white space and line terminator characters are TAB, LF, VT, FF, CR
    and SP.  The middleware itself never calls it. *)
Definition is_whitespace (a : Ascii.ascii) : bool :=
  let n := Ascii.nat_of_ascii a in
  (Nat.leb 9 n && Nat.leb n 13) || Nat.eqb n 32.

Fixpoint trimStart (s : string) : string :=
  match s with
  | "" => ""
  | String a s' => if is_whitespace a then trimStart s' else s
  end.

Fixpoint trimEnd (s : string) : string :=
  match s with
  | "" => ""
  | String a s' =>
      match trimEnd s' with
      | "" => if is_whitespace a then "" else String a ""
      | t => String a t
      end
  end.

Definition trim (s : string) : string := trimEnd (trimStart s).

(** The reading under which the credential is the trimmed remainder of
    the header: a remainder that trims to nothing is an empty
    credential, any other is attached trimmed. *)
Definition attaches_trimmed (req : AuthRequest) (res : Response) : Prop :=
  ∀ rest, bearer req rest →
    (trim rest = "" →
       rejected_with (authMiddleware req res) 401 (-32001)
         "Unauthorized: Invalid Bearer token")
    ∧ (trim rest ≠ "" →
       apiKey (req_after (authMiddleware req res)) = Some (trim rest)).

(** The reading under which a rejected request carries no part of an
    identity on its record. *)
Definition exposes_nothing (req : AuthRequest) (res : Response) : Prop :=
  next_called (authMiddleware req res) = false →
  apiKey (req_after (authMiddleware req res)) = None
  ∧ environmentId (req_after (authMiddleware req res)) = None.

End AuthSpec.

(** ** The Node process as the code sees it *)

(** [RequestContext] of src/context/requestContext.ts. *)
Module RequestContext.
Record t := mk {
  apiKey : string;
  environmentId : string
}.
End RequestContext.
Abbreviation RequestContext := RequestContext.t.
Abbreviation mkRequestContext := RequestContext.mk.

(** Outcome of a JavaScript call: a value, or a thrown [Error] carrying
    its message. *)
Inductive Result (A : Type) : Type :=
| Ok (a : A)
| Throw (msg : string).
Arguments Ok {A} a.
Arguments Throw {A} msg.

(** Code run by a request handler, as far as the context carrier can
    tell: it looks the context up, binds a context around a callback, or
    leaves a continuation to a later turn of the event loop (an [await],
    a promise reaction, a timer). *)
#[local] Unset Elimination Schemes.
Inductive cmd : Type :=
| Lookup
| RunWith (context : RequestContext) (fn : list cmd)
| Defer (k : list cmd).
#[local] Set Elimination Schemes.

(** A pending continuation.  [captured] is the store that the async
    resource copied from the execution context that created it.  [scope]
    is bookkeeping only: the identity that passing the context down as an
    explicit argument would have delivered to this continuation. *)
Record Task := mkTask {
  scope : option RequestContext;
  captured : option RequestContext;
  code : list cmd
}.

(** One observed call of [getRequestContext]. *)
Record Event := mkEvent {
  ev_scope : option RequestContext;
  ev_result : Result RequestContext
}.

(** The process state: the store slot of the current execution resource
    (what [requestContextStorage.getStore()] reads), [process.env], the
    continuations waiting for a turn, and the lookups observed so far. *)
Record Process := mkProcess {
  store : option RequestContext;
  env : gmap string string;
  queue : list Task;
  log : list Event
}.

Definition set_store (v : option RequestContext) (p : Process) : Process :=
  mkProcess v (env p) (queue p) (log p).

Definition set_env (e : gmap string string) (p : Process) : Process :=
  mkProcess (store p) e (queue p) (log p).

Definition enqueue (t : Task) (p : Process) : Process :=
  mkProcess (store p) (env p) (queue p ++ [t]) (log p).

Definition record (e : Event) (p : Process) : Process :=
  mkProcess (store p) (env p) (queue p) (log p ++ [e]).

(** Synchronous JavaScript code: it may throw and it may change the
    process state. *)
Definition M (A : Type) : Type := Process → Result A * Process.

#[global] Instance M_ret : MRet M := λ A a p, (Ok a, p).

#[global] Instance M_bind : MBind M := λ A B f m p,
  match m p with
  | (Ok a, p') => f a p'
  | (Throw e, p') => (Throw e, p')
  end.

(** [throw new Error(msg)]. *)
Definition throw {A} (msg : string) : M A := λ p, (Throw msg, p).

(** [try { m } catch { h }]. *)
Definition try_catch {A} (m : M A) (h : M A) : M A := λ p,
  match m p with
  | (Ok a, p') => (Ok a, p')
  | (Throw _, p') => h p'
  end.

(** [try { m } finally { f }], for a [finally] block that cannot throw. *)
Definition try_finally {A} (m : M A) (f : Process → Process) : M A := λ p,
  let '(r, p') := m p in (r, f p').

Definition get_store : M (option RequestContext) := λ p, (Ok (store p), p).
Definition put_store (v : option RequestContext) : M unit := λ p, (Ok tt, set_store v p).
Definition process_env : M (gmap string string) := λ p, (Ok (env p), p).

(** ** The context carrier: src/context/requestContext.ts *)

Module Ctx.

Definition NoActiveContext : string :=
  "Request context not available - authorization required".

(** [AsyncLocalStorage.prototype.run]: the store slot of the current
    execution resource is overwritten for the duration of the callback
    and put back in a [finally]. *)
Definition AsyncLocalStorage_run {T} (v : RequestContext) (fn : M T) : M T :=
  oldStore ← get_store;
  put_store (Some v);;
  try_finally fn (set_store oldStore).

(** [AsyncLocalStorage.prototype.getStore]. *)
Definition AsyncLocalStorage_getStore : M (option RequestContext) := get_store.

Definition getRequestContext : M RequestContext :=
  context ← AsyncLocalStorage_getStore;
  match context with
  | None => throw NoActiveContext
  | Some c => mret c
  end.

Definition runWithContext {T} (context : RequestContext) (fn : M T) : M T :=
  AsyncLocalStorage_run context fn.

End Ctx.

(** ** The client factory: [createMapiClient] *)

Module Mapi.

Definition sourceTrackingHeaderName : string := "X-KC-SOURCE".

Definition MissingCredential : string :=
  "API key not provided (neither in context nor environment)".

Definition MissingNamespace : string :=
  "Environment ID not provided (neither in context nor environment)".

(** The two fields of package.json the factory reads. *)
Record PackageJson := mkPackageJson {
  name : string;
  version : string
}.

(** The configuration handed to the SDK's [createManagementClient]; the
    client it returns is identified with that configuration. *)
Record ManagementClient := mkManagementClient {
  client_apiKey : string;
  client_environmentId : string;
  client_headers : list (string * string)
}.

Definition createManagementClient (apiKey environmentId : string)
    (headers : list (string * string)) : ManagementClient :=
  mkManagementClient apiKey environmentId headers.

(** Modelled from the spec: src/utils/throwError.ts is not among the
    sources; by the factory's contract a missing credential or
    namespace is a failure reported to the caller, so [throwError]
    throws an [Error] with the given message. *)
Definition throwError {A} (message : string) : M A := throw message.

Section Factory.

(** package.json is not among the sources. *)
Variable packageJson : PackageJson.

(** The values of [finalApiKey] and [finalEnvironmentId] when the
    [try]/[catch] statement is left. *)
Definition resolve (environmentId apiKey : option string)
    : M (option string * option string) :=
  try_catch
    (context ← Ctx.getRequestContext;
     mret (apiKey ?? Some (RequestContext.apiKey context),
           environmentId ?? Some (RequestContext.environmentId context)))
    (e ← process_env;
     mret (apiKey ?? e !! "KONTENT_API_KEY",
           environmentId ?? e !! "KONTENT_ENVIRONMENT_ID")).

Definition createMapiClient (environmentId apiKey : option string)
    : M ManagementClient :=
  '(finalApiKey, finalEnvironmentId) ← resolve environmentId apiKey;
  (if Js.falsy finalApiKey then throwError MissingCredential else mret tt);;
  (if Js.falsy finalEnvironmentId then throwError MissingNamespace else mret tt);;
  mret (createManagementClient
          (default "" finalApiKey)
          (default "" finalEnvironmentId)
          [(sourceTrackingHeaderName,
            name packageJson ++ ";" ++ version packageJson)]).

End Factory.

End Mapi.

(** Vocabulary for statements about the factory. *)

Module MapiSpec.
Import Mapi.

(** The client built from credential [k] and namespace [e]. *)
Definition clientFor (pkg : PackageJson) (k e : string) : ManagementClient :=
  mkManagementClient k e [("X-KC-SOURCE", name pkg ++ ";" ++ version pkg)].

(** The pair a call without overrides falls back on: the bound context
    when there is one, the two process variables otherwise. *)
Definition ambient (p : Process) : option string * option string :=
  match store p with
  | Some c => (Some (RequestContext.apiKey c), Some (RequestContext.environmentId c))
  | None => (env p !! "KONTENT_API_KEY", env p !! "KONTENT_ENVIRONMENT_ID")
  end.

(** [setenv]: the process environment is changed from outside the
    factory, between two of its calls. *)
Definition setenv (k v : string) : M unit := λ p,
  (Ok tt, set_env (<[k := v]> (env p)) p).

(** The reading under which the fallback values are read once: a
    second call without context uses what the first one used, whatever
    happened to the variable [k] in between. *)
Definition read_once (pkg : PackageJson) (p : Process) (k v : string) : Prop :=
  store p = None →
  ∀ r1 p1 u p2 r2 p3,
    createMapiClient pkg None None p = (r1, p1) →
    setenv k v p1 = (u, p2) →
    createMapiClient pkg None None p2 = (r2, p3) →
    r1 = r2.

End MapiSpec.

(** ** Request handlers interleaving on one thread *)

Module Loop.

(** What a lookup made under the explicit scope [sc] has to return. *)
Definition expected (sc : option RequestContext) : Result RequestContext :=
  match sc with
  | Some c => Ok c
  | None => Throw Ctx.NoActiveContext
  end.

(** Synchronous execution of one command.  [sc] only labels the events
    and the continuations; the result of a lookup comes from
    [Ctx.getRequestContext], that is from the store slot. *)
Fixpoint exec (sc : option RequestContext) (c : cmd) {struct c} : M unit :=
  match c with
  | Lookup => λ p,
      let '(r, p') := Ctx.getRequestContext p in
      (match r with Ok _ => Ok tt | Throw e => Throw e end,
       record (mkEvent sc r) p')
  | RunWith context fn =>
      Ctx.runWithContext context
        ((fix block (l : list cmd) : M unit :=
            match l with
            | [] => mret tt
            | c' :: l' => exec (Some context) c';; block l'
            end) fn)
  | Defer k => λ p, (Ok tt, enqueue (mkTask sc (store p) k) p)
  end.

(** A block of commands; a throw abandons the rest of the block. *)
Fixpoint exec_block (sc : option RequestContext) (l : list cmd) : M unit :=
  match l with
  | [] => mret tt
  | c :: l' => exec sc c;; exec_block sc l'
  end.

(** One turn of the event loop: the [i]-th pending continuation is
    taken off the queue and run to completion with its captured store
    in the store slot; afterwards the slot is put back.  A throw that
    reaches the top of the turn is a rejected promise and is dropped. *)
Definition turn (i : nat) (p : Process) : Process :=
  match queue p !! i with
  | None => p
  | Some t =>
      let p1 := mkProcess (captured t) (env p) (delete i (queue p)) (log p) in
      let '(_, p2) := exec_block (scope t) (code t) p1 in
      set_store (store p) p2
  end.

(** A schedule names, turn after turn, which pending continuation runs
    next: every interleaving of the handlers is some schedule. *)
Definition run (schedule : list nat) (p : Process) : Process :=
  foldl (λ q i, turn i q) p schedule.

(** The transport's handler for one authenticated request (bin.ts):
    [runWithContext({apiKey, environmentId}, handleRequest)]. *)
Definition handler (identity : RequestContext) (handleRequest : list cmd) : Task :=
  mkTask None None [RunWith identity handleRequest].

(** A process that has just accepted the given requests. *)
Definition serving (e : gmap string string) (requests : list Task) : Process :=
  mkProcess None e requests [].

End Loop.

(** Vocabulary for statements about interleaved handlers. *)

Module LoopSpec.
Import Loop.

(** The store a continuation captured is the identity of the extent it
    was created in. *)
Definition task_ok (t : Task) : Prop := captured t = scope t.

(** A lookup returned the identity of the extent it was made in, or
    failed with NoActiveContext when made in none. *)
Definition event_ok (e : Event) : Prop := ev_result e = expected (ev_scope e).

Definition consistent (p : Process) : Prop :=
  Forall task_ok (queue p) ∧ Forall event_ok (log p).

(** What running a piece of synchronous code in extent [sc] preserves:
    the store slot still holds [sc], [process.env] is untouched, and
    the queue and the log stay consistent. *)
Definition preserves (sc : option RequestContext) (m : M unit) : Prop :=
  ∀ p, store p = sc → consistent p →
    store (m p).2 = sc ∧ env (m p).2 = env p ∧ consistent (m p).2.

(** The two tenants of the specification's example. *)
Definition tenantA : RequestContext := mkRequestContext "a" "1".
Definition tenantB : RequestContext := mkRequestContext "b" "2".

End LoopSpec.

(** ** The transports: src/bin.ts *)

Module Bin.
Import Auth.

Definition internalError : Envelope :=
  mkEnvelope "2.0" (mkErrorBody (-32603) "Internal server error") None.

Definition methodNotAllowed : Envelope :=
  mkEnvelope "2.0" (mkErrorBody (-32000) "Method not allowed.") None.

(** What serving one request leaves behind: the request record, what the
    gateway code itself wrote to the response, the outcome of the inner
    handler when it was invoked ([None] when it was not), and the
    process. *)
Record RouteRun (T : Type) := mkRouteRun {
  rr_req : AuthRequest;
  rr_res : Response;
  rr_result : option (Result T);
  rr_process : Process
}.
Arguments mkRouteRun {T} _ _ _ _.
Arguments rr_req {T} _.
Arguments rr_res {T} _.
Arguments rr_result {T} _.
Arguments rr_process {T} _.

(** The object literal [{ apiKey: req.apiKey, environmentId:
    req.environmentId! }].  It is built only when [req.apiKey] is truthy.
    A record without namespace makes the second field [undefined]; it is
    mapped to the empty string, which every consumer treats alike. *)
Definition boundIdentity (req : AuthRequest) : RequestContext :=
  mkRequestContext (default "" (apiKey req)) (default "" (environmentId req)).

(** The statement shared by POST /mcp and POST /message:
    [if (multiTenant && req.apiKey) await runWithContext({...}, fn);
     else await fn();] *)
Definition underIdentity {T} (multiTenant : bool) (req : AuthRequest) (fn : M T)
    : M T :=
  if multiTenant && negb (Js.falsy (apiKey req))
  then Ctx.runWithContext (boundIdentity req) fn
  else fn.

(** [if (multiTenant) app.use(authMiddleware)] in front of a route: the
    route runs when the middleware calls [next()]. *)
Definition guarded {T} (multiTenant : bool)
    (route : AuthRequest → Response → Process → RouteRun T)
    (req : AuthRequest) (res : Response) (p : Process) : RouteRun T :=
  if multiTenant then
    let o := authMiddleware req res in
    if next_called o then route (req_after o) (res_after o) p
    else mkRouteRun (req_after o) (res_after o) None p
  else route req res p.

(** *** startStreamableHTTP *)

(** The POST /mcp route.  [handleRequest] stands for the inner closure,
    run to completion; [headersSent] is the value of [res.headersSent]
    when the [catch] block tests it. *)
Definition postMcp {T} (multiTenant headersSent : bool) (handleRequest : M T)
    (req : AuthRequest) (res : Response) (p : Process) : RouteRun T :=
  match underIdentity multiTenant req handleRequest p with
  | (Ok v, p') => mkRouteRun req res (Some (Ok v)) p'
  | (Throw e, p') =>
      mkRouteRun req
        (if headersSent then res else status_json 500 internalError res)
        (Some (Throw e)) p'
  end.

(** The GET /mcp and DELETE /mcp routes:
    [res.writeHead(405).end(JSON.stringify({...}))]. *)
Definition refuseMethod (req : AuthRequest) (res : Response) (p : Process)
    : RouteRun unit :=
  mkRouteRun req (status_json 405 methodNotAllowed res) None p.

(** A request to /mcp as the application built by [startStreamableHTTP]
    serves it, once [express.json()] has parsed its body. *)
Definition mcpPost {T} (multiTenant headersSent : bool) (handleRequest : M T)
    : AuthRequest → Response → Process → RouteRun T :=
  guarded multiTenant (postMcp multiTenant headersSent handleRequest).

Definition mcpGet (multiTenant : bool)
    : AuthRequest → Response → Process → RouteRun unit :=
  guarded multiTenant refuseMethod.

Definition mcpDelete (multiTenant : bool)
    : AuthRequest → Response → Process → RouteRun unit :=
  guarded multiTenant refuseMethod.

(** *** startSSE *)

(** [new SSEServerTransport("/message", res)]: the transport writes to
    the response stream of the GET request that created it. *)
Record Transport := mkTransport {
  endpoint : string;
  stream : nat
}.

(** [let transport: SSEServerTransport;], shared by the two routes. *)
Record SseApp := mkSseApp {
  transport : option Transport
}.

Definition started : SseApp := mkSseApp None.

(** Reading a property of [undefined], in V8's words. *)
Definition undefinedTransport : string :=
  "Cannot read properties of undefined (reading 'handlePostMessage')".

(** The GET /sse route.  [connect] stands for [server.connect]; both
    branches of the [if] call [handleConnection()] as it is. *)
Definition getSse {T} (multiTenant : bool) (connect : Transport → M T)
    (res_stream : nat) (req : AuthRequest) (res : Response) (p : Process)
    : RouteRun T * SseApp :=
  let t := mkTransport "/message" res_stream in
  let '(r, p') :=
    (if multiTenant && negb (Js.falsy (apiKey req))
     then connect t else connect t) p in
  (mkRouteRun req res (Some r) p', mkSseApp (Some t)).

(** The POST /message route; it has no [try]/[catch]. *)
Definition postMessage {T} (multiTenant : bool)
    (handlePostMessage : Transport → AuthRequest → Response → M T)
    (app : SseApp) (req : AuthRequest) (res : Response) (p : Process)
    : RouteRun T :=
  let handleMessage : M T :=
    match transport app with
    | Some t => handlePostMessage t req res
    | None => throw undefinedTransport
    end in
  let '(r, p') := underIdentity multiTenant req handleMessage p in
  mkRouteRun req res (Some r) p'.

(** The two endpoints as the application built by [startSSE] serves
    them. *)
Definition sseGet {T} (multiTenant : bool) (connect : Transport → M T)
    (res_stream : nat) (app : SseApp)
    (req : AuthRequest) (res : Response) (p : Process) : RouteRun T * SseApp :=
  if multiTenant then
    let o := authMiddleware req res in
    if next_called o
    then getSse multiTenant connect res_stream (req_after o) (res_after o) p
    else (mkRouteRun (req_after o) (res_after o) None p, app)
  else getSse multiTenant connect res_stream req res p.

Definition ssePost {T} (multiTenant : bool)
    (handlePostMessage : Transport → AuthRequest → Response → M T)
    (app : SseApp) : AuthRequest → Response → Process → RouteRun T :=
  guarded multiTenant (postMessage multiTenant handlePostMessage app).

(** *** main *)

(** [String.prototype.toLowerCase] on the letters A to Z.  Other
    characters are left alone: no character outside A-Z lower-cases to a
    letter of "stdio", "sse" or "shttp", so the comparisons made by
    [main] come out as in JavaScript. *)
Definition lowerChar (a : Ascii.ascii) : Ascii.ascii :=
  let n := Ascii.nat_of_ascii a in
  if Nat.leb 65 n && Nat.leb n 90 then Ascii.ascii_of_nat (n + 32) else a.

Fixpoint toLowerCase (s : string) : string :=
  match s with
  | "" => ""
  | String a s' => String (lowerChar a) (toLowerCase s')
  end.

(** [args.includes(x)]. *)
Definition includes (x : string) (args : list string) : bool :=
  existsb (String.eqb x) args.

(** What [main] does with the process: it ends it through
    [process.exit], starts one of the three servers, or returns without
    having done either. *)
Inductive Launch : Type :=
| Exit (code : Z) (stderr : list string)
| Stdio (warnings : list string)
| Sse (multiTenant : bool)
| StreamableHttp (multiTenant : bool)
| Idle.

Definition usage : list string :=
  ["Please specify a valid transport type: stdio, sse, or shttp";
   "Optional: Add --multi-tenant flag or set MULTI_TENANT=true for multi-tenant mode"].

(** [args] is [process.argv.slice(2)]. *)
Definition main (args : list string) (e : gmap string string) : Launch :=
  let transportType := toLowerCase <$> head args in
  let multiTenant :=
    includes "--multi-tenant" args
    || bool_decide (e !! "MULTI_TENANT" = Some "true") in
  let t := default "" transportType in
  if Js.falsy transportType
     || (negb (String.eqb t "stdio") && negb (String.eqb t "sse")
         && negb (String.eqb t "shttp"))
  then Exit 1 usage
  else if String.eqb t "stdio" then
    Stdio (if multiTenant
           then ["Multi-tenant mode is not supported for stdio transport"]
           else [])
  else if String.eqb t "sse" then Sse multiTenant
  else if String.eqb t "shttp" then StreamableHttp multiTenant
  else Idle.

End Bin.

(** Vocabulary for statements about the transports. *)

Module BinSpec.
Import Auth AuthSpec Bin.

(** The request carries the credential and the namespace, both
    non-empty, in its two headers. *)
Definition carries (req : AuthRequest) (credential namespace : string) : Prop :=
  credential ≠ "" ∧ namespace ≠ ""
  ∧ bearer req credential
  ∧ headers req !! "x-environment-id" = Some namespace.

(** The request gets past the middleware mount of the application. *)
Definition admitted (multiTenant : bool) (req : AuthRequest) (res : Response) : Prop :=
  multiTenant = false ∨ next_called (authMiddleware req res) = true.

(** The record a request leaves the middleware with. *)
Definition identified (req : AuthRequest) (credential namespace : string)
    : AuthRequest :=
  mkAuthRequest (headers req) (Some credential) (Some namespace).

(** Multi-tenant mode as [main] derives it from the arguments that
    follow the transport name and from the environment. *)
Definition multiTenantRequested (rest : list string) (e : gmap string string)
    : bool :=
  includes "--multi-tenant" rest
  || bool_decide (e !! "MULTI_TENANT" = Some "true").

(** The three names [main] accepts. *)
Definition transportName (t : string) : Prop :=
  t = "stdio" ∨ t = "sse" ∨ t = "shttp".

End BinSpec.

(** Vocabulary for statements about the identities a program binds. *)

Module BoundSpec.

(** The identities that the [runWithContext] calls of a command bind. *)
Fixpoint bound (c : cmd) : list RequestContext :=
  match c with
  | Lookup => []
  | RunWith context fn =>
      context :: (fix all (l : list cmd) : list RequestContext :=
                    match l with
                    | [] => []
                    | c' :: l' => (bound c' ++ all l')%list
                    end) fn
  | Defer k =>
      (fix all (l : list cmd) : list RequestContext :=
         match l with
         | [] => []
         | c' :: l' => (bound c' ++ all l')%list
         end) k
  end.

Definition bound_block (l : list cmd) : list RequestContext :=
  flat_map bound l.

(** The identities a list of requests can bind, and the handlers the
    transport runs for them. *)
Definition identities (requests : list (RequestContext * list cmd))
    : list RequestContext :=
  flat_map (λ r, r.1 :: bound_block r.2) requests.

Definition handlers (requests : list (RequestContext * list cmd)) : list Task :=
  map (λ r, Loop.handler r.1 r.2) requests.

(** Everything a pending continuation can still bind or already runs in
    lies in [S]. *)
Definition task_within (S : RequestContext → Prop) (t : Task) : Prop :=
  (∀ c, scope t = Some c → S c) ∧ Forall S (bound_block (code t)).

Definition event_within (S : RequestContext → Prop) (e : Event) : Prop :=
  ∀ c, ev_scope e = Some c → S c.

Definition within (S : RequestContext → Prop) (p : Process) : Prop :=
  Forall (task_within S) (queue p) ∧ Forall (event_within S) (log p).

(** What running synchronous code in extent [sc] keeps, for identities
    drawn from [S]. *)
Definition confined (S : RequestContext → Prop) (m : M unit) : Prop :=
  ∀ p, within S p → within S (m p).2.

End BoundSpec.

(** * Properties *)

(** ** Strings *)

Section StringFacts.

Lemma falsy_Some (s : string) : Js.falsy (Some s) = true ↔ s = "".
Proof. destruct s; simpl; split; congruence. Qed.

Lemma falsy_Some_false (s : string) : s ≠ "" → Js.falsy (Some s) = false.
Proof. destruct s; simpl; congruence. Qed.

Lemma startsWith_app (p r : string) : Js.startsWith p (p ++ r) = true.
Proof.
  induction p as [|a p IH]; simpl; [by destruct r|].
  by rewrite Ascii.eqb_refl.
Qed.

Lemma startsWith_split (p s : string) :
  Js.startsWith p s = true → s = p ++ Js.substring (String.length p) s.
Proof.
  revert s; induction p as [|a p IH]; intros s; simpl; [done|].
  destruct s as [|b s]; [done|].
  destruct (Ascii.eqb_spec a b) as [->|]; [|done].
  intros H. change (String b s = String b (p ++ Js.substring (String.length p) s)).
  f_equal. by apply IH.
Qed.

Lemma substring_app (p r : string) : Js.substring (String.length p) (p ++ r) = r.
Proof. induction p as [|a p IH]; simpl; [by destruct r|done]. Qed.

Lemma nullish_Some (v : string) (b : option string) : Some v ?? b = Some v.
Proof. reflexivity. Qed.

Lemma nullish_None (b : option string) : None ?? b = b.
Proof. reflexivity. Qed.

End StringFacts.

(** ** The credential extractor *)

Module AuthFacts.
Import Auth AuthSpec.

Lemma no_bearer_outcome req res :
  no_bearer req →
  authMiddleware req res = mkOutcome req (status_json 401 bearerRequired res) false.
Proof.
  unfold authMiddleware. intros [-> | (h & -> & Hp)]; [done|].
  simpl default. rewrite Hp. by rewrite orb_true_r.
Qed.

Lemma bearer_header req rest :
  bearer req rest →
  Js.falsy (headers req !! "authorization")
  || negb (Js.startsWith "Bearer " (default "" (headers req !! "authorization")))
  = false.
Proof.
  intros ->. simpl default. rewrite startsWith_app. reflexivity.
Qed.

Lemma empty_bearer_outcome req res :
  bearer req "" →
  authMiddleware req res = mkOutcome req (status_json 401 invalidBearer res) false.
Proof.
  intros H. unfold authMiddleware. rewrite (bearer_header _ _ H).
  cbv zeta. unfold bearer in H. rewrite !H. reflexivity.
Qed.

Lemma token_outcome req res tok :
  bearer req tok → tok ≠ "" →
  authMiddleware req res =
    let req1 := set_apiKey tok req in
    let environmentId := headers req !! "x-environment-id" in
    if Js.falsy environmentId
    then mkOutcome req1 (status_json 400 environmentRequired res) false
    else mkOutcome (set_environmentId (default "" environmentId) req1) res true.
Proof.
  intros H Hne. unfold authMiddleware. rewrite (bearer_header _ _ H).
  cbv zeta. unfold bearer in H. rewrite !H. simpl default.
  change 7 with (String.length "Bearer "). rewrite !substring_app.
  rewrite (falsy_Some_false _ Hne). reflexivity.
Qed.

(** Every request falls in exactly one of the three header shapes. *)
Lemma header_cases req :
  no_bearer req ∨ bearer req "" ∨ ∃ tok, tok ≠ "" ∧ bearer req tok.
Proof.
  unfold no_bearer, bearer.
  destruct (headers req !! "authorization") as [h|] eqn:E; [|by left; left].
  destruct (Js.startsWith "Bearer " h) eqn:Hp; [|left; right; eauto].
  right. apply startsWith_split in Hp.
  destruct (Js.substring (String.length "Bearer ") h) as [|a t] eqn:Hs.
  - left. by rewrite Hp.
  - right. exists (String a t). split; [done|]. by rewrite Hp at 1.
Qed.

Lemma rejected_cases req res :
  next_called (authMiddleware req res) = false →
  no_bearer req ∨ bearer req ""
  ∨ ∃ tok, tok ≠ "" ∧ bearer req tok ∧ no_environment req.
Proof.
  intros Hn. destruct (header_cases req) as [H | [H | (tok & Hne & H)]]; auto.
  right; right. exists tok. repeat split; trivial.
  rewrite (token_outcome _ res _ H Hne) in Hn. cbv zeta in Hn.
  unfold no_environment.
  destruct (headers req !! "x-environment-id") as [[|a e]|]; auto; discriminate.
Qed.

(** C3.  The middleware rejects, without calling [next()], exactly in
    three situations, each with its own envelope and a null id:
    Authorization absent or not starting with "Bearer " gives code
    -32001 "Unauthorized: Bearer token required"; "Bearer " followed by
    nothing gives -32001 "Unauthorized: Invalid Bearer token"; a valid
    Authorization header with X-Environment-ID absent or empty gives
    -32602 "Bad Request: X-Environment-ID header required".  Any request
    that is rejected is in one of the three situations. *)
Theorem rejection_envelopes (req : AuthRequest) (res : Response) :
  (no_bearer req →
     rejected_with (authMiddleware req res) 401 (-32001)
       "Unauthorized: Bearer token required")
  ∧ (bearer req "" →
     rejected_with (authMiddleware req res) 401 (-32001)
       "Unauthorized: Invalid Bearer token")
  ∧ (∀ tok, tok ≠ "" → bearer req tok → no_environment req →
     rejected_with (authMiddleware req res) 400 (-32602)
       "Bad Request: X-Environment-ID header required")
  ∧ (next_called (authMiddleware req res) = false →
     no_bearer req ∨ bearer req ""
     ∨ ∃ tok, tok ≠ "" ∧ bearer req tok ∧ no_environment req).
Proof.
  repeat split.
  - by rewrite no_bearer_outcome.
  - by rewrite no_bearer_outcome.
  - by rewrite empty_bearer_outcome.
  - by rewrite empty_bearer_outcome.
  - rewrite (token_outcome _ _ tok) by assumption.
    by destruct H1 as [-> | ->].
  - rewrite (token_outcome _ _ tok) by assumption.
    by destruct H1 as [-> | ->].
  - apply rejected_cases.
Qed.

(** The wrong scheme of the specification's example, an empty
    remainder, and a missing namespace header. *)
Lemma rejection_envelopes_witness :
  rejected_with
    (authMiddleware (incoming {["authorization" := "Token abc"]}) freshResponse)
    401 (-32001) "Unauthorized: Bearer token required"
  ∧ rejected_with
    (authMiddleware (incoming {["authorization" := "Bearer "]}) freshResponse)
    401 (-32001) "Unauthorized: Invalid Bearer token"
  ∧ rejected_with
    (authMiddleware (incoming {["authorization" := "Bearer abc"]}) freshResponse)
    400 (-32602) "Bad Request: X-Environment-ID header required".
Proof.
  split; [|split].
  - destruct (rejection_envelopes
                (incoming {["authorization" := "Token abc"]}) freshResponse)
      as (H & _).
    apply H. right. exists "Token abc". split; reflexivity.
  - destruct (rejection_envelopes
                (incoming {["authorization" := "Bearer "]}) freshResponse)
      as (_ & H & _).
    apply H. reflexivity.
  - destruct (rejection_envelopes
                (incoming {["authorization" := "Bearer abc"]}) freshResponse)
      as (_ & _ & H & _).
    apply (H "abc"); [discriminate | reflexivity | left; reflexivity].
Defined.

(** C4 as stated fails: a request with a valid Authorization header
    and no X-Environment-ID header is rejected with the credential
    already on its record. *)
Lemma partial_identity_counterexample :
  ¬ exposes_nothing (incoming {["authorization" := "Bearer k"]}) freshResponse.
Proof.
  unfold exposes_nothing. intros H.
  destruct (H eq_refl) as [Hk _]. vm_compute in Hk. discriminate.
Qed.

(** C4, amended.  A rejected request never has the namespace attached
    and its headers are untouched.  Rejected for its Authorization
    header (absent, wrong scheme, or empty remainder), its record is
    left exactly as it came in.  Rejected for its X-Environment-ID
    header, its record differs from the incoming one in the credential
    field only, which holds the token. *)
Theorem rejected_record (req : AuthRequest) (res : Response) :
  next_called (authMiddleware req res) = false →
  environmentId (req_after (authMiddleware req res)) = environmentId req
  ∧ headers (req_after (authMiddleware req res)) = headers req
  ∧ (no_bearer req ∨ bearer req "" → req_after (authMiddleware req res) = req)
  ∧ (∀ tok, tok ≠ "" → bearer req tok →
       req_after (authMiddleware req res) = set_apiKey tok req).
Proof.
  intros Hn.
  destruct (rejected_cases _ _ Hn) as [H | [H | (tok & Hne & H & He)]].
  - rewrite no_bearer_outcome by assumption. simpl. repeat split; trivial.
    intros tok' _ H'. exfalso. unfold bearer in H'.
    destruct H as [H | (h & H & Hp)]; rewrite H in H'; [done|].
    injection H' as ->. by rewrite startsWith_app in Hp.
  - rewrite empty_bearer_outcome by assumption. simpl. repeat split; trivial.
    intros tok' Hne' H'. unfold bearer in *. rewrite H in H'.
    injection H' as H'. by destruct tok'.
  - rewrite (token_outcome _ _ tok) by assumption. cbv zeta.
    assert (Js.falsy (headers req !! "x-environment-id") = true) as ->
      by (by destruct He as [-> | ->]).
    simpl. repeat split; trivial.
    + intros [Hb | Hb]; exfalso; unfold bearer in *.
      * destruct Hb as [Hb | (h & Hb & Hp)]; rewrite Hb in H; [done|].
        injection H as ->. by rewrite startsWith_app in Hp.
      * rewrite Hb in H. injection H as H. by destruct tok.
    + intros tok' _ H'. unfold bearer in *. rewrite H in H'.
      injection H' as H'. f_equal.
      revert H'. generalize "Bearer ". intros p.
      induction p as [|a p IH]; simpl; [done|]. intros [= ?]. auto.
Qed.

Lemma rejected_record_witness :
  let req := incoming {["authorization" := "Bearer k"]} in
  environmentId (req_after (authMiddleware req freshResponse)) = None
  ∧ headers (req_after (authMiddleware req freshResponse)) = headers req
  ∧ (no_bearer req ∨ bearer req "" →
       req_after (authMiddleware req freshResponse) = req)
  ∧ (∀ tok, tok ≠ "" → bearer req tok →
       req_after (authMiddleware req freshResponse) = set_apiKey tok req).
Proof.
  apply (rejected_record (incoming {["authorization" := "Bearer k"]}) freshResponse).
  reflexivity.
Defined.

(** C5.  For non-empty [credential] and [namespace], a request whose
    headers are Authorization: "Bearer " ++ credential and
    X-Environment-ID: namespace passes the middleware, which attaches
    exactly these two strings and writes no response. *)
Theorem extraction_exact (req : AuthRequest) (res : Response)
    (credential namespace : string) :
  credential ≠ "" → namespace ≠ "" →
  headers req !! "authorization" = Some ("Bearer " ++ credential) →
  headers req !! "x-environment-id" = Some namespace →
  authMiddleware req res =
    mkOutcome (mkAuthRequest (headers req) (Some credential) (Some namespace))
              res true.
Proof.
  intros Hc Hn Ha He.
  rewrite (token_outcome _ _ credential) by assumption. cbv zeta.
  rewrite He, (falsy_Some_false _ Hn). reflexivity.
Qed.

Lemma extraction_exact_witness :
  let req :=
    incoming {["authorization" := "Bearer  s3cr3t "; "x-environment-id" := " env-1"]} in
  authMiddleware req freshResponse
  = mkOutcome (mkAuthRequest (headers req) (Some " s3cr3t ") (Some " env-1"))
      freshResponse true.
Proof.
  intros req.
  apply (extraction_exact req freshResponse " s3cr3t " " env-1").
  - discriminate.
  - discriminate.
  - reflexivity.
  - reflexivity.
Defined.

(** C6 as stated fails: the remainder "  x  " is attached as it is,
    not as "x", and a remainder of blanks is attached rather than
    rejected as an empty credential. *)
Lemma trimmed_credential_counterexample :
  ¬ attaches_trimmed
      (incoming {["authorization" := "Bearer   x  "; "x-environment-id" := "e"]})
      freshResponse
  ∧ ¬ attaches_trimmed
      (incoming {["authorization" := "Bearer    "; "x-environment-id" := "e"]})
      freshResponse.
Proof.
  split; intros H.
  - destruct (H "  x  " eq_refl) as [_ Hk].
    assert (trim "  x  " ≠ "") as Hne by (vm_compute; discriminate).
    specialize (Hk Hne). vm_compute in Hk. discriminate.
  - destruct (H "   " eq_refl) as [Hr _].
    destruct (Hr eq_refl) as [Hn _]. vm_compute in Hn. discriminate.
Qed.

(** C6, amended.  For a request whose Authorization header is "Bearer "
    followed by [rest]: when [rest] is empty the request is rejected as
    an empty credential; otherwise the credential put on the record is
    [rest] itself, character for character, blanks included, and the
    request can then only be rejected for its X-Environment-ID header. *)
Theorem credential_is_remainder (req : AuthRequest) (res : Response)
    (rest : string) :
  bearer req rest →
  (rest = "" →
     rejected_with (authMiddleware req res) 401 (-32001)
       "Unauthorized: Invalid Bearer token")
  ∧ (rest ≠ "" →
     apiKey (req_after (authMiddleware req res)) = Some rest
     ∧ (next_called (authMiddleware req res) = false → no_environment req)).
Proof.
  intros H. split.
  - intros ->. by rewrite empty_bearer_outcome.
  - intros Hne. rewrite (token_outcome _ _ rest) by assumption. cbv zeta.
    unfold no_environment.
    destruct (headers req !! "x-environment-id") as [[|a e]|]; simpl; auto.
    split; [done|discriminate].
Qed.

Lemma credential_is_remainder_witness :
  let req :=
    incoming {["authorization" := "Bearer   x  "; "x-environment-id" := "e"]} in
  ("  x  " = "" →
     rejected_with (authMiddleware req freshResponse) 401 (-32001)
       "Unauthorized: Invalid Bearer token")
  ∧ ("  x  " ≠ "" →
     apiKey (req_after (authMiddleware req freshResponse)) = Some "  x  "
     ∧ (next_called (authMiddleware req freshResponse) = false →
        no_environment req)).
Proof.
  intros req. apply (credential_is_remainder req freshResponse "  x  ").
  reflexivity.
Defined.

End AuthFacts.

(** ** The context carrier *)

Module CtxFacts.

Lemma runWithContext_eq {T} (c : RequestContext) (fn : M T) (p : Process) :
  Ctx.runWithContext c fn p
  = ((fn (set_store (Some c) p)).1,
     set_store (store p) (fn (set_store (Some c) p)).2).
Proof.
  unfold Ctx.runWithContext, Ctx.AsyncLocalStorage_run, try_finally,
    get_store, put_store, mbind, M_bind.
  by destruct (fn (set_store (Some c) p)).
Qed.

Lemma set_store_back (v : option RequestContext) (p : Process) :
  set_store (store p) (set_store v p) = p.
Proof. by destruct p. Qed.

Lemma getRequestContext_eq (p : Process) :
  Ctx.getRequestContext p = (Loop.expected (store p), p).
Proof.
  unfold Ctx.getRequestContext, Ctx.AsyncLocalStorage_getStore, get_store,
    mbind, M_bind.
  by destruct (store p).
Qed.

End CtxFacts.

(** ** The client factory *)

Module MapiFacts.
Import Mapi MapiSpec CtxFacts.

Lemma resolve_eq (environmentId apiKey : option string) (p : Process) :
  resolve environmentId apiKey p
  = (Ok (apiKey ?? (ambient p).1, environmentId ?? (ambient p).2), p).
Proof.
  unfold resolve, ambient, try_catch, Ctx.getRequestContext,
    Ctx.AsyncLocalStorage_getStore, get_store, process_env, mbind, M_bind.
  by destruct (store p).
Qed.

(** The factory in closed form: it reads the process and never changes it. *)
Lemma createMapiClient_eq pkg (environmentId apiKey : option string) (p : Process) :
  createMapiClient pkg environmentId apiKey p
  = (if Js.falsy (apiKey ?? (ambient p).1) then Throw MissingCredential
     else if Js.falsy (environmentId ?? (ambient p).2) then Throw MissingNamespace
     else Ok (clientFor pkg (default "" (apiKey ?? (ambient p).1))
                            (default "" (environmentId ?? (ambient p).2))),
     p).
Proof.
  unfold createMapiClient. unfold mbind at 1. unfold M_bind at 1.
  rewrite resolve_eq.
  destruct (Js.falsy (apiKey ?? (ambient p).1)); [reflexivity|].
  destruct (Js.falsy (environmentId ?? (ambient p).2)); reflexivity.
Qed.

Lemma ambient_context p c :
  store p = Some c →
  ambient p = (Some (RequestContext.apiKey c), Some (RequestContext.environmentId c)).
Proof. unfold ambient. by intros ->. Qed.

Lemma ambient_fallback p :
  store p = None →
  ambient p = (env p !! "KONTENT_API_KEY", env p !! "KONTENT_ENVIRONMENT_ID").
Proof. unfold ambient. by intros ->. Qed.

(** Reduce the projections and [??] of a resolved pair, leaving the
    presence checks for rewriting. *)
Ltac pick_fields :=
  cbn [fst snd Js.nullish default from_option id store set_store
       RequestContext.apiKey RequestContext.environmentId].

Ltac resolved :=
  pick_fields; rewrite ?falsy_Some_false by assumption; done.

(** C1.  Called with no arguments, the factory builds its client from
    the bound context when one is active (for the context ("x","y"),
    exactly ("x","y")); with no context and both process variables set
    to non-empty values, from exactly that pair; with no context and
    KONTENT_API_KEY absent it fails with the credential error, also
    when KONTENT_ENVIRONMENT_ID is absent too; with only
    KONTENT_ENVIRONMENT_ID absent it fails with the namespace error. *)
Theorem factory_defaults (pkg : PackageJson) (p : Process) :
  (∀ x y, x ≠ "" → y ≠ "" → store p = Some (mkRequestContext x y) →
     createMapiClient pkg None None p = (Ok (clientFor pkg x y), p))
  ∧ (∀ k e, k ≠ "" → e ≠ "" → store p = None →
     env p !! "KONTENT_API_KEY" = Some k →
     env p !! "KONTENT_ENVIRONMENT_ID" = Some e →
     createMapiClient pkg None None p = (Ok (clientFor pkg k e), p))
  ∧ (store p = None → env p !! "KONTENT_API_KEY" = None →
     createMapiClient pkg None None p = (Throw MissingCredential, p))
  ∧ (∀ k, k ≠ "" → store p = None →
     env p !! "KONTENT_API_KEY" = Some k →
     env p !! "KONTENT_ENVIRONMENT_ID" = None →
     createMapiClient pkg None None p = (Throw MissingNamespace, p)).
Proof.
  repeat split.
  - intros x y Hx Hy Hs. rewrite createMapiClient_eq, (ambient_context _ _ Hs).
    resolved.
  - intros k e Hk He Hs HK HE. rewrite createMapiClient_eq, (ambient_fallback _ Hs).
    pick_fields. rewrite HK, HE. resolved.
  - intros Hs HK. rewrite createMapiClient_eq, (ambient_fallback _ Hs).
    rewrite HK. resolved.
  - intros k Hk Hs HK HE. rewrite createMapiClient_eq, (ambient_fallback _ Hs).
    rewrite HK, HE. resolved.
Qed.

Lemma factory_defaults_witness :
  let pkg := mkPackageJson "mcp-server" "1.0.0" in
  let bound := mkProcess (Some (mkRequestContext "x" "y"))
                 {["KONTENT_API_KEY" := "k"; "KONTENT_ENVIRONMENT_ID" := "e"]} [] [] in
  let single := mkProcess None
                 {["KONTENT_API_KEY" := "k"; "KONTENT_ENVIRONMENT_ID" := "e"]} [] [] in
  let bare := mkProcess None ∅ [] [] in
  let half := mkProcess None {["KONTENT_API_KEY" := "k"]} [] [] in
  createMapiClient pkg None None bound = (Ok (clientFor pkg "x" "y"), bound)
  ∧ createMapiClient pkg None None single = (Ok (clientFor pkg "k" "e"), single)
  ∧ createMapiClient pkg None None bare = (Throw MissingCredential, bare)
  ∧ createMapiClient pkg None None half = (Throw MissingNamespace, half).
Proof.
  intros pkg bound single bare half. split; [|split; [|split]].
  - destruct (factory_defaults pkg bound) as (H & _).
    apply H; [discriminate | discriminate | reflexivity].
  - destruct (factory_defaults pkg single) as (_ & H & _).
    apply H; [discriminate | discriminate | reflexivity | reflexivity | reflexivity].
  - destruct (factory_defaults pkg bare) as (_ & _ & H & _).
    apply H; reflexivity.
  - destruct (factory_defaults pkg half) as (_ & _ & _ & H).
    apply (H "k"); [discriminate | reflexivity | reflexivity | reflexivity].
Defined.

(** C7.  A supplied override is the resolved value of its field
    whatever the bound context and the process variables hold, and the
    other field is resolved independently: when it has no override it
    comes from the bound context if one is active and from the process
    variable otherwise.  With values that pass the presence check, the
    client is built from that resolved pair. *)
Theorem override_precedence (pkg : PackageJson) (p : Process) :
  (∀ k environmentId, ∃ fe,
     resolve environmentId (Some k) p = (Ok (Some k, fe), p))
  ∧ (∀ e apiKey, ∃ fk,
     resolve (Some e) apiKey p = (Ok (fk, Some e), p))
  ∧ (∀ k, resolve None (Some k) p = (Ok (Some k, (ambient p).2), p))
  ∧ (∀ e, resolve (Some e) None p = (Ok ((ambient p).1, Some e), p))
  ∧ (∀ k e, k ≠ "" → e ≠ "" →
     createMapiClient pkg (Some e) (Some k) p = (Ok (clientFor pkg k e), p))
  ∧ (∀ k c, k ≠ "" → store p = Some c → RequestContext.environmentId c ≠ "" →
     createMapiClient pkg None (Some k) p
     = (Ok (clientFor pkg k (RequestContext.environmentId c)), p))
  ∧ (∀ k e, k ≠ "" → e ≠ "" → store p = None →
     env p !! "KONTENT_ENVIRONMENT_ID" = Some e →
     createMapiClient pkg None (Some k) p = (Ok (clientFor pkg k e), p))
  ∧ (∀ e c, e ≠ "" → store p = Some c → RequestContext.apiKey c ≠ "" →
     createMapiClient pkg (Some e) None p
     = (Ok (clientFor pkg (RequestContext.apiKey c) e), p))
  ∧ (∀ k e, k ≠ "" → e ≠ "" → store p = None →
     env p !! "KONTENT_API_KEY" = Some k →
     createMapiClient pkg (Some e) None p = (Ok (clientFor pkg k e), p)).
Proof.
  repeat split.
  - intros k eid. rewrite resolve_eq. eauto.
  - intros e key. rewrite resolve_eq. eauto.
  - intros k. by rewrite resolve_eq.
  - intros e. by rewrite resolve_eq.
  - intros k e Hk He. rewrite createMapiClient_eq. resolved.
  - intros k c Hk Hs Hc. rewrite createMapiClient_eq, (ambient_context _ _ Hs).
    resolved.
  - intros k e Hk He Hs HE. rewrite createMapiClient_eq, (ambient_fallback _ Hs).
    pick_fields. rewrite HE. resolved.
  - intros e c He Hs Hc. rewrite createMapiClient_eq, (ambient_context _ _ Hs).
    resolved.
  - intros k e Hk He Hs HK. rewrite createMapiClient_eq, (ambient_fallback _ Hs).
    pick_fields. rewrite HK. resolved.
Qed.

Lemma override_precedence_witness :
  let pkg := mkPackageJson "mcp-server" "1.0.0" in
  let vars : gmap string string :=
    {["KONTENT_API_KEY" := "k"; "KONTENT_ENVIRONMENT_ID" := "e"]} in
  let bound := mkProcess (Some (mkRequestContext "x" "y")) vars [] [] in
  let single := mkProcess None vars [] [] in
  createMapiClient pkg (Some "E") (Some "K") bound = (Ok (clientFor pkg "K" "E"), bound)
  ∧ createMapiClient pkg None (Some "K") bound = (Ok (clientFor pkg "K" "y"), bound)
  ∧ createMapiClient pkg None (Some "K") single = (Ok (clientFor pkg "K" "e"), single)
  ∧ createMapiClient pkg (Some "E") None bound = (Ok (clientFor pkg "x" "E"), bound)
  ∧ createMapiClient pkg (Some "E") None single = (Ok (clientFor pkg "k" "E"), single).
Proof.
  intros pkg vars bound single. split; [|split; [|split; [|split]]].
  - destruct (override_precedence pkg bound) as (_ & _ & _ & _ & H & _).
    apply H; discriminate.
  - destruct (override_precedence pkg bound) as (_ & _ & _ & _ & _ & H & _).
    apply (H "K" (mkRequestContext "x" "y"));
      [discriminate | reflexivity | discriminate].
  - destruct (override_precedence pkg single) as (_ & _ & _ & _ & _ & _ & H & _).
    apply H; [discriminate | discriminate | reflexivity | reflexivity].
  - destruct (override_precedence pkg bound) as (_ & _ & _ & _ & _ & _ & _ & H & _).
    apply (H "E" (mkRequestContext "x" "y"));
      [discriminate | reflexivity | discriminate].
  - destruct (override_precedence pkg single) as (_ & _ & _ & _ & _ & _ & _ & _ & H).
    apply H; [discriminate | discriminate | reflexivity | reflexivity].
Defined.

(** C9 as stated fails: KONTENT_API_KEY changed between two calls
    without context, the second call uses the new value. *)
Lemma read_once_counterexample :
  ¬ read_once (mkPackageJson "mcp-server" "1.0.0")
      (mkProcess None
         {["KONTENT_API_KEY" := "k1"; "KONTENT_ENVIRONMENT_ID" := "e"]} [] [])
      "KONTENT_API_KEY" "k2".
Proof.
  unfold read_once. intros H.
  specialize (H eq_refl _ _ _ _ _ _ eq_refl eq_refl eq_refl).
  vm_compute in H. discriminate.
Qed.

(** C9, amended.  The factory reads the two process variables on every
    call and never writes the process state: two calls without bound
    context give the same result whenever KONTENT_API_KEY and
    KONTENT_ENVIRONMENT_ID hold the same values at both calls, whatever
    else differs between the two process states, and each call without
    arguments uses the values the two variables hold when it is made. *)
Theorem fallback_reread (pkg : PackageJson) (p1 p2 : Process) :
  store p1 = None → store p2 = None →
  (env p1 !! "KONTENT_API_KEY" = env p2 !! "KONTENT_API_KEY" →
   env p1 !! "KONTENT_ENVIRONMENT_ID" = env p2 !! "KONTENT_ENVIRONMENT_ID" →
   ∀ environmentId apiKey,
     (createMapiClient pkg environmentId apiKey p1).1
     = (createMapiClient pkg environmentId apiKey p2).1)
  ∧ (∀ environmentId apiKey,
     (createMapiClient pkg environmentId apiKey p1).2 = p1
     ∧ (createMapiClient pkg environmentId apiKey p2).2 = p2)
  ∧ (∀ k e, k ≠ "" → e ≠ "" →
     env p2 !! "KONTENT_API_KEY" = Some k →
     env p2 !! "KONTENT_ENVIRONMENT_ID" = Some e →
     (createMapiClient pkg None None p2).1 = Ok (clientFor pkg k e)).
Proof.
  intros H1 H2. split; [|split].
  - intros HK HE eid key. rewrite !createMapiClient_eq.
    by rewrite (ambient_fallback _ H1), (ambient_fallback _ H2), HK, HE.
  - intros eid key. by rewrite !createMapiClient_eq.
  - intros k e Hk He HK HE. rewrite createMapiClient_eq, (ambient_fallback _ H2).
    pick_fields. rewrite HK, HE. resolved.
Qed.

Lemma fallback_reread_witness :
  let pkg := mkPackageJson "mcp-server" "1.0.0" in
  let p1 := mkProcess None
              {["KONTENT_API_KEY" := "k"; "KONTENT_ENVIRONMENT_ID" := "e"]} [] [] in
  let p2 := mkProcess None
              {["KONTENT_API_KEY" := "k"; "KONTENT_ENVIRONMENT_ID" := "e";
                "PORT" := "3001"]} [] [] in
  (createMapiClient pkg None None p1).1 = (createMapiClient pkg None None p2).1
  ∧ (createMapiClient pkg None None p1).2 = p1
  ∧ (createMapiClient pkg None None p2).1 = Ok (clientFor pkg "k" "e").
Proof.
  intros pkg p1 p2.
  destruct (fallback_reread pkg p1 p2 eq_refl eq_refl) as (Hsame & Hpure & Hcur).
  split; [|split].
  - apply Hsame; reflexivity.
  - apply Hpure.
  - apply Hcur; [discriminate | discriminate | reflexivity | reflexivity].
Defined.

(** C10.  An empty-string override is not treated as absent.  With
    credential "" the factory fails with the credential error whatever
    the context and the process variables hold, in particular inside a
    bound extent.  With namespace "" it fails as well: with the
    namespace error when the credential resolves to a non-empty value. *)
Theorem empty_override_fails (pkg : PackageJson) (p : Process) :
  (∀ environmentId,
     createMapiClient pkg environmentId (Some "") p = (Throw MissingCredential, p))
  ∧ (∀ c environmentId,
     Ctx.runWithContext c (createMapiClient pkg environmentId (Some "")) p
     = (Throw MissingCredential, p))
  ∧ (∀ apiKey, ∃ msg,
     createMapiClient pkg (Some "") apiKey p = (Throw msg, p)
     ∧ (msg = MissingCredential ∨ msg = MissingNamespace))
  ∧ (∀ k, k ≠ "" →
     createMapiClient pkg (Some "") (Some k) p = (Throw MissingNamespace, p))
  ∧ (∀ c, RequestContext.apiKey c ≠ "" →
     Ctx.runWithContext c (createMapiClient pkg (Some "") None) p
     = (Throw MissingNamespace, p)).
Proof.
  repeat split.
  - intros eid. by rewrite createMapiClient_eq.
  - intros c eid. rewrite runWithContext_eq, createMapiClient_eq.
    cbn [fst snd]. by rewrite set_store_back.
  - intros key. rewrite createMapiClient_eq. pick_fields.
    change (Js.falsy (Some "")) with true. cbv iota.
    destruct (Js.falsy (key ?? (ambient p).1)); eauto.
  - intros k Hk. rewrite createMapiClient_eq. resolved.
  - intros c Hc. rewrite runWithContext_eq, createMapiClient_eq.
    cbn [fst snd]. rewrite set_store_back. unfold ambient. resolved.
Qed.

Lemma empty_override_fails_witness :
  let pkg := mkPackageJson "mcp-server" "1.0.0" in
  let p := mkProcess None
             {["KONTENT_API_KEY" := "k"; "KONTENT_ENVIRONMENT_ID" := "e"]} [] [] in
  Ctx.runWithContext (mkRequestContext "valid" "y")
    (createMapiClient pkg None (Some "")) p
  = (Throw MissingCredential, p)
  ∧ createMapiClient pkg (Some "") (Some "K") p = (Throw MissingNamespace, p)
  ∧ Ctx.runWithContext (mkRequestContext "valid" "y")
      (createMapiClient pkg (Some "") None) p
    = (Throw MissingNamespace, p).
Proof.
  intros pkg p. split; [|split].
  - destruct (empty_override_fails pkg p) as (_ & H & _). apply H.
  - destruct (empty_override_fails pkg p) as (_ & _ & _ & H & _).
    apply H. discriminate.
  - destruct (empty_override_fails pkg p) as (_ & _ & _ & _ & H).
    apply H. discriminate.
Defined.

End MapiFacts.

(** ** The context carrier under interleaving *)

Module LoopFacts.
Import Loop LoopSpec.

(** Induction on commands, with the hypothesis available for every
    command of a callback body. *)
Lemma cmd_ind (P : cmd → Prop)
    (HLookup : P Lookup)
    (HRunWith : ∀ context fn, Forall P fn → P (RunWith context fn))
    (HDefer : ∀ k, P (Defer k)) :
  ∀ c, P c.
Proof.
  fix IH 1. intros [|context fn|k].
  - exact HLookup.
  - apply HRunWith. induction fn as [|c' l' IHl]; constructor.
    + apply IH.
    + exact IHl.
  - apply HDefer.
Qed.

Lemma exec_RunWith sc context fn :
  exec sc (RunWith context fn)
  = Ctx.runWithContext context (exec_block (Some context) fn).
Proof.
  simpl. f_equal. induction fn as [|c l IH]; simpl; [done|]. by rewrite IH.
Qed.

Lemma preserves_ret sc : preserves sc (mret tt).
Proof. intros p Hs Hc. done. Qed.

Lemma preserves_bind sc (m1 m2 : M unit) :
  preserves sc m1 → preserves sc m2 → preserves sc (m1;; m2).
Proof.
  intros H1 H2 p Hs Hc. unfold mbind, M_bind.
  destruct (H1 p Hs Hc) as (Hs1 & He1 & Hc1).
  destruct (m1 p) as [[[]|msg] p1]; simpl in *; [|done].
  destruct (H2 p1 Hs1 Hc1) as (Hs2 & He2 & Hc2).
  rewrite <- He1. done.
Qed.

Lemma preserves_block sc l :
  Forall (λ c, ∀ sc', preserves sc' (exec sc' c)) l →
  preserves sc (exec_block sc l).
Proof.
  induction 1 as [|c l Hc _ IH]; simpl.
  - apply preserves_ret.
  - apply preserves_bind; auto.
Qed.

Lemma preserves_exec c : ∀ sc, preserves sc (exec sc c).
Proof.
  induction c as [|context fn IH|k] using cmd_ind; intros sc p Hs [Hq Hl].
  - (* Lookup *)
    simpl. unfold Ctx.getRequestContext, Ctx.AsyncLocalStorage_getStore,
      get_store, mbind, M_bind. rewrite Hs.
    destruct sc as [c|]; simpl; (split; [done|]); (split; [done|]);
      (split; [done|]); apply Forall_app; split; trivial;
      by apply Forall_singleton.
  - (* RunWith *)
    rewrite exec_RunWith, CtxFacts.runWithContext_eq.
    destruct (preserves_block (Some context) fn IH (set_store (Some context) p))
      as (_ & He & Hq' & Hl'); [done|by split|].
    cbn [fst snd]. rewrite Hs.
    destruct ((exec_block (Some context) fn (set_store (Some context) p)).2).
    simpl in *. done.
  - (* Defer *)
    simpl. split; [done|]. split; [done|]. split; [|done].
    apply Forall_app; split; trivial. apply Forall_singleton.
    unfold task_ok. simpl. done.
Qed.

Lemma preserves_exec_block sc l : preserves sc (exec_block sc l).
Proof.
  apply preserves_block, Forall_forall. intros c _. apply preserves_exec.
Qed.

(** A turn of the event loop keeps the process consistent and leaves
    the store slot as it found it. *)
Lemma turn_consistent i p :
  consistent p →
  consistent (turn i p) ∧ store (turn i p) = store p ∧ env (turn i p) = env p.
Proof.
  intros [Hq Hl]. unfold turn.
  destruct (queue p !! i) as [t|] eqn:Ht; [|done].
  assert (task_ok t) as Hok by (eapply Forall_lookup_1; eauto).
  pose proof (preserves_exec_block (scope t) (code t)
                (mkProcess (captured t) (env p) (delete i (queue p)) (log p)))
    as H.
  destruct H as (_ & He & Hq' & Hl'); [done| |].
  - split; [|done]. simpl. by apply Forall_delete.
  - destruct (exec_block (scope t) (code t) _) as [r p2]. simpl in *.
    destruct p2; simpl in *. done.
Qed.

Lemma run_consistent schedule : ∀ p,
  consistent p →
  consistent (run schedule p)
  ∧ store (run schedule p) = store p ∧ env (run schedule p) = env p.
Proof.
  unfold run. induction schedule as [|i l IH]; intros p Hc; simpl; [done|].
  destruct (turn_consistent i p Hc) as (Hc' & Hs & He).
  destruct (IH _ Hc') as (? & ? & ?). split; [done|]. split; congruence.
Qed.

Lemma serving_consistent e requests :
  Forall task_ok requests → consistent (serving e requests).
Proof. intros H. split; [done|constructor]. Qed.

Lemma handler_ok identity handleRequest : task_ok (handler identity handleRequest).
Proof. reflexivity. Qed.

(** Every lookup logged by a process that started from consistent
    requests agrees with the extent it was made in. *)
Lemma served_event_ok e requests schedule ev :
  Forall task_ok requests →
  ev ∈ log (run schedule (serving e requests)) →
  event_ok ev.
Proof.
  intros Hr Hin.
  destruct (run_consistent schedule _ (serving_consistent e _ Hr)) as ([_ Hl] & _).
  eapply Forall_forall in Hl; eauto.
Qed.

(** Two handlers whose continuations take turns: the lookups of the
    two extents alternate in the log, each with its own identity. *)
Example alternating_turns :
  log (run [0; 0; 0; 0; 0; 0]
         (serving ∅
            [handler tenantA [Lookup; Defer [Lookup; Defer [Lookup]]];
             handler tenantB [Lookup; Defer [Lookup; Defer [Lookup]]]]))
  = [mkEvent (Some tenantA) (Ok tenantA); mkEvent (Some tenantB) (Ok tenantB);
     mkEvent (Some tenantA) (Ok tenantA); mkEvent (Some tenantB) (Ok tenantB);
     mkEvent (Some tenantA) (Ok tenantA); mkEvent (Some tenantB) (Ok tenantB)].
Proof. reflexivity. Qed.

(** C2.  Two request handlers, bound to the identities ("a","1") and
    ("b","2"), run arbitrary code whose continuations are interleaved
    by an arbitrary schedule on one thread.  Every lookup that is logged
    returned the identity of the extent it was made in: a lookup made
    in A's extent returned A's identity, one made in B's extent B's. *)
Theorem interleaving_isolation (e : gmap string string)
    (handleA handleB : list cmd) (schedule : list nat) (ev : Event) :
  ev ∈ log (run schedule
              (serving e [handler tenantA handleA; handler tenantB handleB])) →
  ev_result ev = expected (ev_scope ev)
  ∧ (ev_scope ev = Some tenantA → ev_result ev = Ok tenantA)
  ∧ (ev_scope ev = Some tenantB → ev_result ev = Ok tenantB).
Proof.
  intros Hin.
  assert (event_ok ev) as Hok.
  { eapply served_event_ok; [|exact Hin].
    repeat constructor. }
  unfold event_ok in Hok. split; [done|].
  split; intros Hs; by rewrite Hok, Hs.
Qed.

Lemma interleaving_isolation_witness :
  let handle := [Lookup; Defer [Lookup; Defer [Lookup]]] in
  let ev := mkEvent (Some tenantB) (Ok tenantB) in
  ev ∈ log (run [0; 0; 0; 0; 0; 0]
              (serving ∅ [handler tenantA handle; handler tenantB handle]))
  ∧ ev_result ev = expected (ev_scope ev)
  ∧ (ev_scope ev = Some tenantA → ev_result ev = Ok tenantA)
  ∧ (ev_scope ev = Some tenantB → ev_result ev = Ok tenantB).
Proof.
  intros handle ev.
  assert (ev ∈ log (run [0; 0; 0; 0; 0; 0]
                      (serving ∅ [handler tenantA handle; handler tenantB handle])))
    as Hin by (vm_compute; right; left).
  split; [exact Hin|].
  exact (interleaving_isolation ∅ handle handle [0; 0; 0; 0; 0; 0] ev Hin).
Defined.

(** C8.  A lookup made while no context is bound throws the
    NoActiveContext error and a lookup made as the callback of
    [runWithContext identity] returns [identity].  The same holds
    along asynchronous continuations: in a process serving any
    requests under any schedule, a lookup made outside every extent
    threw NoActiveContext and a lookup made inside the extent of [c]
    returned [c]. *)
Theorem lookup_outside_extent :
  (∀ p, store p = None →
     Ctx.getRequestContext p
     = (Throw "Request context not available - authorization required", p))
  ∧ (∀ p identity,
     Ctx.runWithContext identity Ctx.getRequestContext p = (Ok identity, p))
  ∧ (∀ e requests schedule ev,
     Forall (λ t, scope t = None ∧ captured t = None) requests →
     ev ∈ log (run schedule (serving e requests)) →
     (ev_scope ev = None →
        ev_result ev
        = Throw "Request context not available - authorization required")
     ∧ (∀ c, ev_scope ev = Some c → ev_result ev = Ok c)).
Proof.
  split; [|split].
  - intros p Hs. by rewrite CtxFacts.getRequestContext_eq, Hs.
  - intros p identity.
    rewrite CtxFacts.runWithContext_eq, CtxFacts.getRequestContext_eq.
    cbn [fst snd]. by rewrite CtxFacts.set_store_back.
  - intros e requests schedule ev Hr Hin.
    assert (event_ok ev) as Hok.
    { eapply served_event_ok; [|exact Hin].
      eapply Forall_impl; [exact Hr|]. intros t [Hs Hc].
      unfold task_ok. congruence. }
    unfold event_ok in Hok. split.
    + intros Hs. by rewrite Hok, Hs.
    + intros c Hs. by rewrite Hok, Hs.
Qed.

Lemma lookup_outside_extent_witness :
  let idle := mkProcess None ∅ [] [] in
  let requests := [mkTask None None [Defer [Lookup]]; handler tenantA [Lookup]] in
  let outside := mkEvent None (Throw Ctx.NoActiveContext) in
  Ctx.getRequestContext idle = (Throw Ctx.NoActiveContext, idle)
  ∧ Ctx.runWithContext tenantA Ctx.getRequestContext idle = (Ok tenantA, idle)
  ∧ outside ∈ log (run [0; 0; 0] (serving ∅ requests))
  ∧ ev_result outside = Throw Ctx.NoActiveContext.
Proof.
  intros idle requests outside.
  destruct lookup_outside_extent as (H1 & H2 & H3).
  assert (outside ∈ log (run [0; 0; 0] (serving ∅ requests)))
    as Hin by (vm_compute; right; left).
  split; [|split; [|split]].
  - apply H1. reflexivity.
  - apply H2.
  - exact Hin.
  - apply (H3 ∅ requests [0; 0; 0] outside).
    + repeat constructor.
    + exact Hin.
    + reflexivity.
Defined.

End LoopFacts.

(** ** More on the client factory *)

Module FactoryFacts.
Import Mapi MapiSpec CtxFacts MapiFacts.

Lemma falsy_false_Some (v : option string) :
  Js.falsy v = false → ∃ s, v = Some s ∧ s ≠ "".
Proof.
  destruct v as [[|a s]|]; simpl; try discriminate.
  intros _. by exists (String a s).
Qed.

(** X9.  Whatever its arguments and the process state, the factory
    leaves the process untouched; a client it returns carries the
    resolved credential and namespace, both non-empty, and the source
    tracking header; and the only errors it throws are the credential
    and the namespace error, never the carrier's NoActiveContext. *)
Theorem factory_outcomes (pkg : PackageJson) (environmentId apiKey : option string)
    (p : Process) :
  (createMapiClient pkg environmentId apiKey p).2 = p
  ∧ (∀ c, (createMapiClient pkg environmentId apiKey p).1 = Ok c →
       client_apiKey c ≠ "" ∧ client_environmentId c ≠ ""
       ∧ apiKey ?? (ambient p).1 = Some (client_apiKey c)
       ∧ environmentId ?? (ambient p).2 = Some (client_environmentId c)
       ∧ client_headers c = [("X-KC-SOURCE", name pkg ++ ";" ++ version pkg)])
  ∧ (∀ msg, (createMapiClient pkg environmentId apiKey p).1 = Throw msg →
       msg = MissingCredential ∨ msg = MissingNamespace)
  ∧ (createMapiClient pkg environmentId apiKey p).1 ≠ Throw Ctx.NoActiveContext.
Proof.
  rewrite createMapiClient_eq. cbn [fst snd].
  destruct (Js.falsy (apiKey ?? (ambient p).1)) eqn:Hk.
  { repeat split; try discriminate. intros msg [= <-]. by left. }
  destruct (Js.falsy (environmentId ?? (ambient p).2)) eqn:He.
  { repeat split; try discriminate. intros msg [= <-]. by right. }
  destruct (falsy_false_Some _ Hk) as (k & -> & Hk').
  destruct (falsy_false_Some _ He) as (e & -> & He').
  split; [done|]. split; [|split; discriminate].
  intros c [= <-]. done.
Qed.

Lemma factory_outcomes_witness :
  let pkg := mkPackageJson "mcp-server" "1.0.0" in
  let p := mkProcess (Some (mkRequestContext "x" "y")) ∅ [] [] in
  let c := clientFor pkg "K" "y" in
  client_apiKey c ≠ "" ∧ client_environmentId c ≠ ""
  ∧ Some "K" ?? (ambient p).1 = Some (client_apiKey c)
  ∧ None ?? (ambient p).2 = Some (client_environmentId c)
  ∧ client_headers c = [("X-KC-SOURCE", name pkg ++ ";" ++ version pkg)].
Proof.
  intros pkg p c.
  destruct (factory_outcomes pkg None (Some "K") p) as (_ & H & _).
  apply (H c). reflexivity.
Defined.

(** X10.  Inside a bound extent the process variables are never
    consulted: the outcome of the factory is the same whatever
    [process.env] holds. *)
Theorem context_hides_fallback (pkg : PackageJson)
    (environmentId apiKey : option string) (p : Process)
    (c : RequestContext) (e : gmap string string) :
  store p = Some c →
  (createMapiClient pkg environmentId apiKey (set_env e p)).1
  = (createMapiClient pkg environmentId apiKey p).1.
Proof.
  intros Hs. rewrite !createMapiClient_eq. cbn [fst].
  rewrite (ambient_context p c Hs), (ambient_context (set_env e p) c); done.
Qed.

Lemma context_hides_fallback_witness :
  let pkg := mkPackageJson "mcp-server" "1.0.0" in
  let p := mkProcess (Some (mkRequestContext "x" "y")) ∅ [] [] in
  (createMapiClient pkg None None
     (set_env {["KONTENT_API_KEY" := "k"; "KONTENT_ENVIRONMENT_ID" := "e"]} p)).1
  = (createMapiClient pkg None None p).1.
Proof.
  intros pkg p.
  apply (context_hides_fallback pkg None None p (mkRequestContext "x" "y")).
  reflexivity.
Defined.

End FactoryFacts.

(** ** More on the context carrier *)

Module CarrierFacts.
Import CtxFacts.

(** X11.  [runWithContext] hands back what its callback returned or
    threw and puts the store slot back as it found it, whatever the
    callback did.  A nested call shadows the outer identity for its own
    callback only: once the inner call is over, whether it returned or
    threw, a lookup in the outer callback sees the outer identity. *)
Theorem runWithContext_scoped {T} (a b : RequestContext) (fn : M T) (p : Process) :
  (Ctx.runWithContext a fn p).1 = (fn (set_store (Some a) p)).1
  ∧ store (Ctx.runWithContext a fn p).2 = store p
  ∧ Ctx.runWithContext a (Ctx.runWithContext b Ctx.getRequestContext) p = (Ok b, p)
  ∧ (Ctx.runWithContext a
       (try_catch (Ctx.runWithContext b fn;; mret tt) (mret tt);;
        Ctx.getRequestContext) p).1 = Ok a.
Proof.
  split; [by rewrite runWithContext_eq|].
  split; [rewrite runWithContext_eq; by destruct (fn _) as [r []]|].
  split.
  - rewrite !runWithContext_eq, getRequestContext_eq. cbn [fst snd].
    by rewrite !set_store_back.
  - rewrite runWithContext_eq. cbn [fst].
    unfold try_catch, mbind, M_bind, mret, M_ret.
    rewrite runWithContext_eq.
    destruct (fn (set_store (Some b) (set_store (Some a) p))) as [[v|msg] p2];
      cbn [fst snd]; by rewrite getRequestContext_eq.
Qed.

End CarrierFacts.

(** ** More on interleaved handlers *)

Module ExtentFacts.
Import Loop LoopSpec BoundSpec LoopFacts.

Lemma bound_RunWith context fn :
  bound (RunWith context fn) = context :: bound_block fn.
Proof. reflexivity. Qed.

Lemma bound_Defer k : bound (Defer k) = bound_block k.
Proof. reflexivity. Qed.

Lemma confined_bind S (m1 m2 : M unit) :
  confined S m1 → confined S m2 → confined S (m1;; m2).
Proof.
  intros H1 H2 p Hp. unfold mbind, M_bind.
  specialize (H1 p Hp). destruct (m1 p) as [[[]|msg] p1]; simpl in *; auto.
Qed.

Lemma confined_block S sc l :
  Forall (λ c, ∀ sc', (∀ x, sc' = Some x → S x) → Forall S (bound c) →
                confined S (exec sc' c)) l →
  (∀ x, sc = Some x → S x) → Forall S (bound_block l) →
  confined S (exec_block sc l).
Proof.
  intros Hl Hsc. induction Hl as [|c l Hc _ IH]; simpl; intros Hb.
  - intros p Hp. done.
  - apply Forall_app in Hb as [Hb1 Hb2]. apply confined_bind; auto.
Qed.

Lemma confined_exec S c : ∀ sc,
  (∀ x, sc = Some x → S x) → Forall S (bound c) → confined S (exec sc c).
Proof.
  induction c as [|context fn IH|k] using cmd_ind; intros sc Hsc Hb p [Hq Hl].
  - simpl. rewrite CtxFacts.getRequestContext_eq. simpl. split; [done|].
    apply Forall_app; split; [done|]. apply Forall_singleton.
    intros c Hc. simpl in Hc. auto.
  - rewrite exec_RunWith, CtxFacts.runWithContext_eq. cbn [snd].
    rewrite bound_RunWith in Hb. apply Forall_cons in Hb as [Hctx Hb].
    assert (within S (exec_block (Some context) fn (set_store (Some context) p)).2)
      as Hw.
    { apply confined_block; auto; [|by split].
      intros x [= <-]. done. }
    destruct ((exec_block (Some context) fn (set_store (Some context) p)).2).
    exact Hw.
  - rewrite bound_Defer in Hb. simpl. split; [|done].
    apply Forall_app; split; [done|]. apply Forall_singleton. by split.
Qed.

Lemma confined_exec_block S sc l :
  (∀ x, sc = Some x → S x) → Forall S (bound_block l) →
  confined S (exec_block sc l).
Proof.
  apply confined_block, Forall_forall. intros c _ sc'. apply confined_exec.
Qed.

Lemma turn_within S i p : within S p → within S (turn i p).
Proof.
  intros [Hq Hl]. unfold turn.
  destruct (queue p !! i) as [t|] eqn:Ht; [|done].
  destruct (Forall_lookup_1 _ _ _ _ Hq Ht) as [Hsc Hb].
  pose proof (confined_exec_block S (scope t) (code t) Hsc Hb
                (mkProcess (captured t) (env p) (delete i (queue p)) (log p)))
    as Hw.
  destruct (exec_block (scope t) (code t) _) as [r p2]. simpl in Hw.
  destruct p2. apply Hw. split; [|done]. simpl. by apply Forall_delete.
Qed.

Lemma run_within S schedule : ∀ p, within S p → within S (run schedule p).
Proof.
  unfold run. induction schedule as [|i l IH]; intros p Hp; simpl; [done|].
  apply IH, turn_within, Hp.
Qed.

Lemma handlers_within requests :
  Forall (task_within (λ c, c ∈ identities requests)) (handlers requests).
Proof.
  unfold handlers. apply Forall_map, Forall_forall. intros [c body] Hin.
  split; [done|]. unfold handler. cbn [code bound_block flat_map fst snd].
  rewrite app_nil_r, bound_RunWith.
  apply Forall_forall. intros x Hx. unfold identities.
  apply list_elem_of_In, in_flat_map. exists (c, body).
  split; [by apply list_elem_of_In|]. by apply list_elem_of_In.
Qed.

Lemma handlers_ok requests : Forall task_ok (handlers requests).
Proof. unfold handlers. apply Forall_map, Forall_forall. done. Qed.

(** X12.  Any number of request handlers, bound to any identities and
    running any code, nested bindings included, under any schedule:
    every lookup returned the identity of the innermost extent it was
    made in, or threw NoActiveContext outside every extent; and an
    identity returned by a lookup is always one that some
    [runWithContext] call of the served code binds. *)
Theorem served_lookups_sound (e : gmap string string)
    (requests : list (RequestContext * list cmd)) (schedule : list nat)
    (ev : Event) :
  ev ∈ log (run schedule (serving e (handlers requests))) →
  ev_result ev = expected (ev_scope ev)
  ∧ (∀ c, ev_result ev = Ok c → c ∈ identities requests).
Proof.
  intros Hin.
  assert (event_ok ev) as Hok
    by (eapply served_event_ok; [apply handlers_ok|exact Hin]).
  split; [exact Hok|]. intros c Hc.
  assert (within (λ c, c ∈ identities requests)
            (run schedule (serving e (handlers requests)))) as [_ Hl].
  { apply run_within. split; [apply handlers_within|constructor]. }
  eapply Forall_forall in Hl; [|exact Hin].
  apply Hl. unfold event_ok in Hok. rewrite Hc in Hok.
  destruct (ev_scope ev); simpl in Hok; congruence.
Qed.

Lemma served_lookups_sound_witness :
  let a := mkRequestContext "a" "1" in
  let b := mkRequestContext "b" "2" in
  let c := mkRequestContext "c" "3" in
  let requests :=
    [(a, [Defer [Lookup]]); (b, [RunWith c [Defer [Lookup]]; Lookup]);
     (c, [Lookup])] in
  let ev := mkEvent (Some b) (Ok b) in
  ev ∈ log (run [1; 0; 0; 0; 0] (serving ∅ (handlers requests)))
  ∧ ev_result ev = expected (ev_scope ev)
  ∧ (∀ x, ev_result ev = Ok x → x ∈ identities requests).
Proof.
  intros a b c requests ev.
  assert (ev ∈ log (run [1; 0; 0; 0; 0] (serving ∅ (handlers requests))))
    as Hin by (vm_compute; left).
  split; [exact Hin|].
  exact (served_lookups_sound ∅ requests [1; 0; 0; 0; 0] ev Hin).
Defined.

(** X13.  When the served code never calls [runWithContext], as in
    single-tenant mode, no context ever exists: every lookup, in every
    continuation and under every schedule, throws NoActiveContext. *)
Theorem no_binding_no_context (e : gmap string string)
    (bodies : list (list cmd)) (schedule : list nat) (ev : Event) :
  Forall (λ body, bound_block body = []) bodies →
  ev ∈ log (run schedule (serving e (map (mkTask None None) bodies))) →
  ev_scope ev = None ∧ ev_result ev = Throw Ctx.NoActiveContext.
Proof.
  intros Hb Hin.
  assert (event_ok ev) as Hok.
  { eapply served_event_ok; [|exact Hin].
    apply Forall_map, Forall_forall. done. }
  assert (within (λ _, False)
            (run schedule (serving e (map (mkTask None None) bodies)))) as [_ Hl].
  { apply run_within. split; [|constructor]. simpl.
    apply Forall_map. eapply Forall_impl; [exact Hb|].
    intros body Hbody. split; [done|]. simpl. rewrite Hbody. constructor. }
  eapply Forall_forall in Hl; [|exact Hin].
  unfold event_ok in Hok. unfold event_within in Hl.
  destruct (ev_scope ev) as [c|]; [destruct (Hl c eq_refl)|]. done.
Qed.

Lemma no_binding_no_context_witness :
  let bodies := [[Lookup; Defer [Lookup]]; [Defer [Defer [Lookup]]]] in
  let ev := mkEvent None (Throw Ctx.NoActiveContext) in
  ev ∈ log (run [1; 0; 0; 0] (serving ∅ (map (mkTask None None) bodies)))
  ∧ ev_scope ev = None ∧ ev_result ev = Throw Ctx.NoActiveContext.
Proof.
  intros bodies ev.
  assert (ev ∈ log (run [1; 0; 0; 0] (serving ∅ (map (mkTask None None) bodies))))
    as Hin by (vm_compute; left).
  split; [exact Hin|].
  apply (no_binding_no_context ∅ bodies [1; 0; 0; 0] ev); [|exact Hin].
  repeat constructor.
Defined.

End ExtentFacts.

(** ** The transports *)

Module TransportFacts.
Import Auth AuthSpec AuthFacts Mapi MapiSpec CtxFacts MapiFacts Bin BinSpec.

Lemma auth_pass req res credential namespace :
  carries req credential namespace →
  authMiddleware req res = mkOutcome (identified req credential namespace) res true.
Proof.
  intros (Hc & Hn & Hb & He).
  rewrite (token_outcome _ _ credential) by assumption. cbv zeta.
  rewrite He, (falsy_Some_false _ Hn). reflexivity.
Qed.

Lemma auth_pass_inv req res :
  next_called (authMiddleware req res) = true →
  ∃ credential namespace, carries req credential namespace.
Proof.
  intros Hn. destruct (header_cases req) as [H | [H | (tok & Hne & H)]].
  - rewrite no_bearer_outcome in Hn by assumption. discriminate.
  - rewrite empty_bearer_outcome in Hn by assumption. discriminate.
  - rewrite (token_outcome _ _ tok) in Hn by assumption. cbv zeta in Hn.
    destruct (headers req !! "x-environment-id") as [[|a e]|] eqn:He;
      try discriminate.
    exists tok, (String a e). repeat split; trivial. discriminate.
Qed.

Lemma auth_reject_status req res :
  next_called (authMiddleware req res) = false →
  statusCode (res_after (authMiddleware req res)) = 401%Z
  ∨ statusCode (res_after (authMiddleware req res)) = 400%Z.
Proof.
  intros Hn. destruct (rejected_cases _ _ Hn) as [H | [H | (tok & Hne & H & He)]].
  - rewrite no_bearer_outcome by assumption. by left.
  - rewrite empty_bearer_outcome by assumption. by left.
  - rewrite (token_outcome _ _ tok) by assumption. cbv zeta.
    destruct He as [-> | ->]; by right.
Qed.

Lemma guarded_admit {T} (route : AuthRequest → Response → Process → RouteRun T)
    req res p credential namespace :
  carries req credential namespace →
  guarded true route req res p = route (identified req credential namespace) res p.
Proof. intros H. unfold guarded. by rewrite (auth_pass _ _ _ _ H). Qed.

Lemma guarded_reject {T} (route : AuthRequest → Response → Process → RouteRun T)
    req res p :
  next_called (authMiddleware req res) = false →
  guarded true route req res p
  = mkRouteRun (req_after (authMiddleware req res))
      (res_after (authMiddleware req res)) None p.
Proof. intros H. unfold guarded. by rewrite H. Qed.

Lemma underIdentity_bound {T} (fn : M T) req credential namespace :
  credential ≠ "" →
  underIdentity true (identified req credential namespace) fn
  = Ctx.runWithContext (mkRequestContext credential namespace) fn.
Proof.
  intros Hc. unfold underIdentity, identified. cbn [apiKey andb].
  by rewrite (falsy_Some_false _ Hc).
Qed.

Lemma createMapiClient_bound pkg credential namespace p :
  credential ≠ "" → namespace ≠ "" →
  Ctx.runWithContext (mkRequestContext credential namespace)
    (createMapiClient pkg None None) p
  = (Ok (clientFor pkg credential namespace), p).
Proof.
  intros Hc Hn. rewrite runWithContext_eq, createMapiClient_eq. cbn [fst snd].
  rewrite set_store_back. unfold ambient. pick_fields.
  by rewrite !falsy_Some_false.
Qed.

Lemma getRequestContext_bound c p :
  Ctx.runWithContext c Ctx.getRequestContext p = (Ok c, p).
Proof.
  rewrite runWithContext_eq, getRequestContext_eq. cbn [fst snd].
  by rewrite set_store_back.
Qed.

Lemma mcpPost_admitted {T} (handleRequest : M T) headersSent req res p
    credential namespace :
  carries req credential namespace →
  mcpPost true headersSent handleRequest req res p
  = match Ctx.runWithContext (mkRequestContext credential namespace)
            handleRequest p with
    | (Ok v, p') =>
        mkRouteRun (identified req credential namespace) res (Some (Ok v)) p'
    | (Throw e, p') =>
        mkRouteRun (identified req credential namespace)
          (if headersSent then res else status_json 500 internalError res)
          (Some (Throw e)) p'
    end.
Proof.
  intros H. pose proof H as (Hc & _).
  unfold mcpPost. rewrite (guarded_admit _ _ _ _ _ _ H). unfold postMcp.
  by rewrite underIdentity_bound.
Qed.

Lemma mcpPost_lookup headersSent req res p credential namespace :
  carries req credential namespace →
  mcpPost true headersSent Ctx.getRequestContext req res p
  = mkRouteRun (identified req credential namespace) res
      (Some (Ok (mkRequestContext credential namespace))) p.
Proof.
  intros H. by rewrite (mcpPost_admitted _ _ _ _ _ _ _ H), getRequestContext_bound.
Qed.

(** X1.  In multi-tenant mode, a POST /mcp request that carries a
    credential and a namespace is served under exactly that identity: a
    lookup made by the handler returns it, and a factory call without
    arguments builds its client from it, whatever the process variables
    and the store slot held when the request came in. *)
Theorem tenant_from_headers (pkg : PackageJson) (headersSent : bool)
    (req : AuthRequest) (res : Response) (p : Process)
    (credential namespace : string) :
  carries req credential namespace →
  mcpPost true headersSent Ctx.getRequestContext req res p
  = mkRouteRun (identified req credential namespace) res
      (Some (Ok (mkRequestContext credential namespace))) p
  ∧ mcpPost true headersSent (createMapiClient pkg None None) req res p
  = mkRouteRun (identified req credential namespace) res
      (Some (Ok (clientFor pkg credential namespace))) p.
Proof.
  intros H. pose proof H as (Hc & Hn & _).
  split; [by apply mcpPost_lookup|].
  by rewrite (mcpPost_admitted _ _ _ _ _ _ _ H), createMapiClient_bound.
Qed.

Lemma tenant_from_headers_witness :
  let pkg := mkPackageJson "mcp-server" "1.0.0" in
  let req := incoming {["authorization" := "Bearer key-A";
                        "x-environment-id" := "env-A"]} in
  let p := mkProcess (Some (mkRequestContext "stale" "stale"))
             {["KONTENT_API_KEY" := "k"; "KONTENT_ENVIRONMENT_ID" := "e"]} [] [] in
  mcpPost true false Ctx.getRequestContext req freshResponse p
  = mkRouteRun (identified req "key-A" "env-A") freshResponse
      (Some (Ok (mkRequestContext "key-A" "env-A"))) p
  ∧ mcpPost true false (createMapiClient pkg None None) req freshResponse p
  = mkRouteRun (identified req "key-A" "env-A") freshResponse
      (Some (Ok (clientFor pkg "key-A" "env-A"))) p.
Proof.
  intros pkg req p.
  apply (tenant_from_headers pkg false req freshResponse p "key-A" "env-A").
  split; [discriminate|]. split; [discriminate|]. split; reflexivity.
Defined.

(** X2.  In multi-tenant mode the handler of POST /mcp is invoked
    exactly when the middleware lets the request through.  A request
    that is not let through leaves the process untouched and is
    answered by the middleware with status 401 or 400.  Whenever the
    handler is invoked a context is bound: a lookup in it never throws,
    it returns the non-empty credential and namespace of the headers. *)
Theorem handler_iff_admitted {T} (handleRequest : M T) (headersSent : bool)
    (req : AuthRequest) (res : Response) (p : Process) :
  (rr_result (mcpPost true headersSent handleRequest req res p) = None
   ↔ next_called (authMiddleware req res) = false)
  ∧ (next_called (authMiddleware req res) = false →
     rr_process (mcpPost true headersSent handleRequest req res p) = p
     ∧ rr_res (mcpPost true headersSent handleRequest req res p)
       = res_after (authMiddleware req res)
     ∧ (statusCode (rr_res (mcpPost true headersSent handleRequest req res p)) = 401%Z
        ∨ statusCode (rr_res (mcpPost true headersSent handleRequest req res p)) = 400%Z))
  ∧ (∀ r, rr_result (mcpPost true headersSent Ctx.getRequestContext req res p) = Some r →
     ∃ credential namespace,
       carries req credential namespace
       ∧ r = Ok (mkRequestContext credential namespace)).
Proof.
  split; [|split].
  - split.
    + intros Hr. destruct (next_called (authMiddleware req res)) eqn:Hn; [|done].
      exfalso. destruct (auth_pass_inv _ _ Hn) as (c & n & H).
      revert Hr. rewrite (mcpPost_admitted _ _ _ _ _ _ _ H).
      by destruct (Ctx.runWithContext _ _ _) as [[v|msg] p'].
    + intros Hn. unfold mcpPost. by rewrite guarded_reject.
  - intros Hn. unfold mcpPost. rewrite guarded_reject by assumption.
    cbn [rr_process rr_res]. repeat split. by apply auth_reject_status.
  - intros r Hr. destruct (next_called (authMiddleware req res)) eqn:Hn.
    + destruct (auth_pass_inv _ _ Hn) as (c & n & H). exists c, n.
      split; [exact H|].
      rewrite (mcpPost_lookup _ _ _ _ _ _ H) in Hr. by injection Hr as <-.
    + unfold mcpPost in Hr. by rewrite guarded_reject in Hr.
Qed.

Lemma handler_iff_admitted_witness :
  let req := incoming {["authorization" := "Bearer key-A"]} in
  let p := mkProcess None ∅ [] [] in
  rr_process (mcpPost true false Ctx.getRequestContext req freshResponse p) = p
  ∧ rr_res (mcpPost true false Ctx.getRequestContext req freshResponse p)
    = res_after (authMiddleware req freshResponse)
  ∧ (statusCode (rr_res (mcpPost true false Ctx.getRequestContext req freshResponse p))
     = 401%Z
     ∨ statusCode (rr_res (mcpPost true false Ctx.getRequestContext req freshResponse p))
       = 400%Z).
Proof.
  intros req p.
  destruct (handler_iff_admitted Ctx.getRequestContext false req freshResponse p)
    as (_ & H & _).
  apply H. reflexivity.
Defined.

(** X3.  In single-tenant mode the headers of a POST /mcp request play
    no part: the record is left alone, no context is bound, a factory
    call without arguments builds its client from the two process
    variables, and a handler that looks the context up fails, which the
    route answers with the internal error unless headers were sent. *)
Theorem single_tenant_ignores_headers (pkg : PackageJson) (headersSent : bool)
    (req : AuthRequest) (res : Response) (p : Process) (k e : string) :
  store p = None → k ≠ "" → e ≠ "" →
  env p !! "KONTENT_API_KEY" = Some k →
  env p !! "KONTENT_ENVIRONMENT_ID" = Some e →
  mcpPost false headersSent (createMapiClient pkg None None) req res p
  = mkRouteRun req res (Some (Ok (clientFor pkg k e))) p
  ∧ mcpPost false headersSent Ctx.getRequestContext req res p
  = mkRouteRun req
      (if headersSent then res else status_json 500 internalError res)
      (Some (Throw Ctx.NoActiveContext)) p.
Proof.
  intros Hs Hk He HK HE. unfold mcpPost, guarded, postMcp, underIdentity.
  cbn [andb]. rewrite createMapiClient_eq, getRequestContext_eq, Hs.
  rewrite (ambient_fallback _ Hs), HK, HE. pick_fields.
  by rewrite !falsy_Some_false.
Qed.

Lemma single_tenant_ignores_headers_witness :
  let pkg := mkPackageJson "mcp-server" "1.0.0" in
  let req := incoming {["authorization" := "Bearer key-A";
                        "x-environment-id" := "env-A"]} in
  let p := mkProcess None
             {["KONTENT_API_KEY" := "k"; "KONTENT_ENVIRONMENT_ID" := "e"]} [] [] in
  mcpPost false false (createMapiClient pkg None None) req freshResponse p
  = mkRouteRun req freshResponse (Some (Ok (clientFor pkg "k" "e"))) p
  ∧ mcpPost false false Ctx.getRequestContext req freshResponse p
  = mkRouteRun req (status_json 500 internalError freshResponse)
      (Some (Throw Ctx.NoActiveContext)) p.
Proof.
  intros pkg req p.
  apply (single_tenant_ignores_headers pkg false req freshResponse p "k" "e");
    [reflexivity | discriminate | discriminate | reflexivity | reflexivity].
Defined.

(** X4.  A handler of POST /mcp that throws never makes the route throw:
    the route answers status 500 with the envelope -32603 "Internal
    server error" and a null id, unless headers were already sent, in
    which case it writes nothing; when the handler returns, the route
    writes nothing either.  In multi-tenant mode the store slot is the
    same after the request as before it, whatever the handler did. *)
Theorem handler_failure_contained {T} (handleRequest : M T)
    (multiTenant headersSent : bool)
    (req : AuthRequest) (res : Response) (p : Process) :
  store (rr_process (mcpPost true headersSent handleRequest req res p)) = store p
  ∧ (∀ msg,
       rr_result (mcpPost multiTenant headersSent handleRequest req res p)
       = Some (Throw msg) →
       rr_res (mcpPost multiTenant headersSent handleRequest req res p)
       = if headersSent then res
         else mkResponse 500
                (Some (mkEnvelope "2.0"
                         (mkErrorBody (-32603) "Internal server error") None)))
  ∧ (∀ v,
       rr_result (mcpPost multiTenant headersSent handleRequest req res p)
       = Some (Ok v) →
       rr_res (mcpPost multiTenant headersSent handleRequest req res p) = res).
Proof.
  assert (∀ mt,
    (mt = true ∧ next_called (authMiddleware req res) = false
     ∧ mcpPost mt headersSent handleRequest req res p
       = mkRouteRun (req_after (authMiddleware req res))
           (res_after (authMiddleware req res)) None p)
    ∨ ∃ req' (fn : M T),
        (mt = true → store (fn p).2 = store p)
        ∧ mcpPost mt headersSent handleRequest req res p
          = match fn p with
            | (Ok v, p') => mkRouteRun req' res (Some (Ok v)) p'
            | (Throw e, p') =>
                mkRouteRun req'
                  (if headersSent then res else status_json 500 internalError res)
                  (Some (Throw e)) p'
            end) as Hshape.
  { intros [|].
    - destruct (next_called (authMiddleware req res)) eqn:Hn.
      + right. destruct (auth_pass_inv _ _ Hn) as (c & n & H).
        exists (identified req c n),
          (Ctx.runWithContext (mkRequestContext c n) handleRequest).
        split; [|by apply mcpPost_admitted].
        intros _. rewrite runWithContext_eq. cbn [snd].
        by destruct (handleRequest _) as [r []].
      + left. unfold mcpPost. by rewrite guarded_reject.
    - right. exists req, handleRequest. split; [done|]. reflexivity. }
  split; [|split].
  - destruct (Hshape true) as [(_ & _ & ->) | (req' & fn & Hst & ->)]; [done|].
    specialize (Hst eq_refl). by destruct (fn p) as [[v|msg] p'].
  - intros msg. destruct (Hshape multiTenant) as [(_ & _ & ->) | (req' & fn & _ & ->)];
      [done|]. by destruct (fn p) as [[v|m] p'].
  - intros v. destruct (Hshape multiTenant) as [(_ & _ & ->) | (req' & fn & _ & ->)];
      [done|]. by destruct (fn p) as [[v'|m] p'].
Qed.

Lemma handler_failure_contained_witness :
  let req := incoming {["authorization" := "Bearer key-A";
                        "x-environment-id" := "env-A"]} in
  let p := mkProcess None ∅ [] [] in
  rr_res (mcpPost true false (throw "boom" : M unit) req freshResponse p)
  = mkResponse 500
      (Some (mkEnvelope "2.0" (mkErrorBody (-32603) "Internal server error") None)).
Proof.
  intros req p.
  destruct (handler_failure_contained (throw "boom" : M unit) true false
              req freshResponse p) as (_ & H & _).
  apply (H "boom"). reflexivity.
Defined.

(** X5.  GET and DELETE on /mcp are refused alike, touch nothing and
    invoke no handler.  A request the application lets through is
    answered 405 with the envelope -32000 "Method not allowed." and a
    null id; in multi-tenant mode a request the middleware stops gets
    the middleware's 401 or 400 instead. *)
Theorem method_not_allowed (multiTenant : bool)
    (req : AuthRequest) (res : Response) (p : Process) :
  mcpDelete multiTenant req res p = mcpGet multiTenant req res p
  ∧ rr_process (mcpGet multiTenant req res p) = p
  ∧ rr_result (mcpGet multiTenant req res p) = None
  ∧ (admitted multiTenant req res →
     rr_res (mcpGet multiTenant req res p)
     = mkResponse 405
         (Some (mkEnvelope "2.0" (mkErrorBody (-32000) "Method not allowed.") None)))
  ∧ (¬ admitted multiTenant req res →
     rr_res (mcpGet multiTenant req res p) = res_after (authMiddleware req res)
     ∧ (statusCode (rr_res (mcpGet multiTenant req res p)) = 401%Z
        ∨ statusCode (rr_res (mcpGet multiTenant req res p)) = 400%Z)).
Proof.
  split; [reflexivity|]. unfold mcpGet, guarded, refuseMethod, admitted.
  destruct multiTenant; [|repeat split; tauto].
  destruct (next_called (authMiddleware req res)) eqn:Hn; cbn [rr_process rr_result rr_res].
  - repeat split; tauto.
  - repeat split; try (intros [?|?]; discriminate).
    by apply auth_reject_status.
Qed.

Lemma method_not_allowed_witness :
  rr_res (mcpGet true (incoming {["authorization" := "Bearer key-A";
                                  "x-environment-id" := "env-A"]})
            freshResponse (mkProcess None ∅ [] []))
  = mkResponse 405
      (Some (mkEnvelope "2.0" (mkErrorBody (-32000) "Method not allowed.") None))
  ∧ statusCode (rr_res (mcpGet true (incoming ∅) freshResponse (mkProcess None ∅ [] [])))
    = 401%Z.
Proof.
  split.
  - destruct (method_not_allowed true
                (incoming {["authorization" := "Bearer key-A";
                            "x-environment-id" := "env-A"]})
                freshResponse (mkProcess None ∅ [] [])) as (_ & _ & _ & H & _).
    apply H. right. reflexivity.
  - destruct (method_not_allowed true (incoming ∅) freshResponse
                (mkProcess None ∅ [] [])) as (_ & _ & _ & _ & H).
    destruct H as (_ & [H | H]).
    + intros [? | ?]; discriminate.
    + exact H.
    + discriminate H.
Defined.

Lemma admitted_cases multiTenant req res :
  admitted multiTenant req res →
  multiTenant = false
  ∨ (multiTenant = true ∧ ∃ credential namespace, carries req credential namespace).
Proof.
  destruct multiTenant; [|by left]. intros [?|Hn]; [done|].
  right. split; [done|]. by apply (auth_pass_inv req res).
Qed.

Lemma postMessage_bound {T}
    (handlePostMessage : Transport → AuthRequest → Response → M T)
    app t req res p credential namespace :
  credential ≠ "" → transport app = Some t →
  postMessage true handlePostMessage app (identified req credential namespace) res p
  = mkRouteRun (identified req credential namespace) res
      (Some (handlePostMessage t (identified req credential namespace) res
               (set_store (Some (mkRequestContext credential namespace)) p)).1)
      (set_store (store p)
         (handlePostMessage t (identified req credential namespace) res
            (set_store (Some (mkRequestContext credential namespace)) p)).2).
Proof.
  intros Hc Ht. unfold postMessage. rewrite Ht.
  rewrite underIdentity_bound by assumption. by rewrite runWithContext_eq.
Qed.

(** X6.  In multi-tenant mode a POST /message request that carries a
    credential and a namespace is handled under exactly that identity,
    whichever connection created the transport: the transport's handler
    receives the record with both values attached, a lookup in it
    returns them and a factory call without arguments builds its client
    from them. *)
Theorem message_identity (pkg : PackageJson) (app : SseApp) (t : Transport)
    (req : AuthRequest) (res : Response) (p : Process)
    (credential namespace : string) :
  carries req credential namespace → transport app = Some t →
  ssePost true (λ t' r _, mret (t', r)) app req res p
  = mkRouteRun (identified req credential namespace) res
      (Some (Ok (t, identified req credential namespace))) p
  ∧ ssePost true (λ _ _ _, Ctx.getRequestContext) app req res p
  = mkRouteRun (identified req credential namespace) res
      (Some (Ok (mkRequestContext credential namespace))) p
  ∧ ssePost true (λ _ _ _, createMapiClient pkg None None) app req res p
  = mkRouteRun (identified req credential namespace) res
      (Some (Ok (clientFor pkg credential namespace))) p.
Proof.
  intros H Ht. pose proof H as (Hc & Hn & _). unfold ssePost.
  rewrite !(guarded_admit _ _ _ _ _ _ H).
  rewrite !(postMessage_bound _ _ t) by assumption.
  rewrite getRequestContext_eq, createMapiClient_eq. cbn [fst snd mret M_ret].
  rewrite !set_store_back. unfold ambient. pick_fields.
  by rewrite !falsy_Some_false.
Qed.

Lemma message_identity_witness :
  let pkg := mkPackageJson "mcp-server" "1.0.0" in
  let app := mkSseApp (Some (mkTransport "/message" 7)) in
  let req := incoming {["authorization" := "Bearer key-B";
                        "x-environment-id" := "env-B"]} in
  let p := mkProcess None
             {["KONTENT_API_KEY" := "k"; "KONTENT_ENVIRONMENT_ID" := "e"]} [] [] in
  ssePost true (λ t' r _, mret (t', r)) app req freshResponse p
  = mkRouteRun (identified req "key-B" "env-B") freshResponse
      (Some (Ok (mkTransport "/message" 7, identified req "key-B" "env-B"))) p
  ∧ ssePost true (λ _ _ _, Ctx.getRequestContext) app req freshResponse p
  = mkRouteRun (identified req "key-B" "env-B") freshResponse
      (Some (Ok (mkRequestContext "key-B" "env-B"))) p
  ∧ ssePost true (λ _ _ _, createMapiClient pkg None None) app req freshResponse p
  = mkRouteRun (identified req "key-B" "env-B") freshResponse
      (Some (Ok (clientFor pkg "key-B" "env-B"))) p.
Proof.
  intros pkg app req p.
  apply (message_identity pkg app (mkTransport "/message" 7) req freshResponse p
           "key-B" "env-B"); [|reflexivity].
  split; [discriminate|]. split; [discriminate|]. split; reflexivity.
Defined.

Lemma sseGet_admitted {T} multiTenant (connect : Transport → M T)
    res_stream app req res p :
  admitted multiTenant req res →
  ∃ req',
    sseGet multiTenant connect res_stream app req res p
    = (mkRouteRun req' res
         (Some (connect (mkTransport "/message" res_stream) p).1)
         (connect (mkTransport "/message" res_stream) p).2,
       mkSseApp (Some (mkTransport "/message" res_stream))).
Proof.
  intros Ha. destruct (admitted_cases _ _ _ Ha) as [-> | (-> & c & n & H)].
  - exists req. unfold sseGet, getSse. cbn [andb].
    by destruct (connect _ p).
  - exists (identified req c n). unfold sseGet. rewrite (auth_pass _ _ _ _ H).
    cbn [next_called req_after res_after]. unfold getSse.
    destruct (true && _); by destruct (connect _ p).
Qed.

(** X7.  GET /sse binds no context, in either mode and whatever the
    request carries: the connection code runs on the process as it is.
    Started outside every extent, a lookup made while connecting throws
    NoActiveContext, and a factory call without arguments fails with the
    credential error when KONTENT_API_KEY is absent, valid headers or
    not. *)
Theorem connection_without_context {T} (pkg : PackageJson) (multiTenant : bool)
    (connect : Transport → M T) (res_stream : nat) (app : SseApp)
    (req : AuthRequest) (res : Response) (p : Process) :
  admitted multiTenant req res →
  rr_result (sseGet multiTenant connect res_stream app req res p).1
  = Some (connect (mkTransport "/message" res_stream) p).1
  ∧ rr_process (sseGet multiTenant connect res_stream app req res p).1
    = (connect (mkTransport "/message" res_stream) p).2
  ∧ (store p = None →
     rr_result (sseGet multiTenant (λ _, Ctx.getRequestContext)
                  res_stream app req res p).1
     = Some (Throw Ctx.NoActiveContext)
     ∧ (env p !! "KONTENT_API_KEY" = None →
        rr_result (sseGet multiTenant (λ _, createMapiClient pkg None None)
                     res_stream app req res p).1
        = Some (Throw MissingCredential))).
Proof.
  intros Ha. split; [|split].
  - by destruct (sseGet_admitted multiTenant connect res_stream app req res p Ha)
      as (req' & ->).
  - by destruct (sseGet_admitted multiTenant connect res_stream app req res p Ha)
      as (req' & ->).
  - intros Hs. split.
    + destruct (sseGet_admitted multiTenant (λ _, Ctx.getRequestContext)
                  res_stream app req res p Ha) as (req' & ->).
      cbn [fst rr_result]. by rewrite getRequestContext_eq, Hs.
    + intros HK.
      destruct (sseGet_admitted multiTenant (λ _, createMapiClient pkg None None)
                  res_stream app req res p Ha) as (req' & ->).
      cbn [fst rr_result]. rewrite createMapiClient_eq. cbn [fst].
      rewrite (ambient_fallback _ Hs), HK. reflexivity.
Qed.

Lemma connection_without_context_witness :
  let req := incoming {["authorization" := "Bearer key-A";
                        "x-environment-id" := "env-A"]} in
  let p := mkProcess None ∅ [] [] in
  rr_result (sseGet true (λ _, Ctx.getRequestContext) 1 started req freshResponse p).1
  = Some (Throw Ctx.NoActiveContext).
Proof.
  intros req p.
  destruct (connection_without_context (mkPackageJson "mcp-server" "1.0.0") true
              (λ _, Ctx.getRequestContext) 1 started req freshResponse p)
    as (_ & _ & H).
  - right. reflexivity.
  - apply H. reflexivity.
Defined.

(** X8.  The application built by [startSSE] keeps one transport: every
    GET /sse it lets through replaces it, and a GET it stops leaves it.
    A POST /message it lets through is handed to the transport of the
    latest such GET, whoever sends it; while there has been none, the
    route throws without reaching any transport. *)
Theorem latest_transport_serves {T} (multiTenant : bool)
    (connect1 connect2 : Transport → M T) (s1 s2 : nat) (app : SseApp)
    (req1 req2 req : AuthRequest) (res1 res2 res : Response)
    (p1 p2 p : Process) :
  admitted multiTenant req2 res2 → admitted multiTenant req res →
  let app1 := (sseGet multiTenant connect1 s1 app req1 res1 p1).2 in
  let app2 := (sseGet multiTenant connect2 s2 app1 req2 res2 p2).2 in
  rr_result (ssePost multiTenant (λ t _ _, mret (stream t)) app2 req res p)
  = Some (Ok s2)
  ∧ (∃ msg,
       rr_result (ssePost multiTenant (λ t _ _, mret (stream t)) started req res p)
       = Some (Throw msg))
  ∧ (¬ admitted multiTenant req1 res1 → app1 = app).
Proof.
  intros Ha2 Ha app1 app2.
  assert (app2 = mkSseApp (Some (mkTransport "/message" s2))) as ->.
  { unfold app2.
    by destruct (sseGet_admitted multiTenant connect2 s2 app1 req2 res2 p2 Ha2)
      as (req' & ->). }
  split; [|split].
  - destruct (admitted_cases _ _ _ Ha) as [-> | (-> & c & n & H)].
    + reflexivity.
    + pose proof H as (Hc & _). unfold ssePost.
      rewrite (guarded_admit _ _ _ _ _ _ H).
      by rewrite (postMessage_bound _ _ (mkTransport "/message" s2)).
  - exists undefinedTransport.
    destruct (admitted_cases _ _ _ Ha) as [-> | (-> & c & n & H)].
    + reflexivity.
    + pose proof H as (Hc & _). unfold ssePost.
      rewrite (guarded_admit _ _ _ _ _ _ H). unfold postMessage.
      rewrite underIdentity_bound by assumption.
      by rewrite runWithContext_eq.
  - intros Hna. unfold app1, sseGet, admitted in *.
    destruct multiTenant; [|tauto].
    destruct (next_called (authMiddleware req1 res1)); [tauto|done].
Qed.

Lemma latest_transport_serves_witness :
  let a := incoming {["authorization" := "Bearer key-A";
                      "x-environment-id" := "env-A"]} in
  let b := incoming {["authorization" := "Bearer key-B";
                      "x-environment-id" := "env-B"]} in
  let p := mkProcess None ∅ [] [] in
  let app1 := (sseGet true (λ _, mret tt) 1 started a freshResponse p).2 in
  let app2 := (sseGet true (λ _, mret tt) 2 app1 b freshResponse p).2 in
  rr_result (ssePost true (λ t _ _, mret (stream t)) app2 a freshResponse p)
  = Some (Ok 2).
Proof.
  intros a b p app1 app2.
  destruct (latest_transport_serves true (λ _, mret tt) (λ _, mret tt) 1 2 started
              a b a freshResponse freshResponse freshResponse p p p) as (H & _).
  - right. reflexivity.
  - right. reflexivity.
  - exact H.
Defined.

End TransportFacts.

(** ** The entry point *)

Module MainFacts.
Import Bin BinSpec.

Lemma lowerChar_idem a : lowerChar (lowerChar a) = lowerChar a.
Proof. by destruct a as [[] [] [] [] [] [] [] []]. Qed.

Lemma toLowerCase_idem s : toLowerCase (toLowerCase s) = toLowerCase s.
Proof. induction s as [|a s IH]; simpl; [done|]. by rewrite lowerChar_idem, IH. Qed.

Lemma toLowerCase_empty s : toLowerCase s = "" → s = "".
Proof. by destruct s. Qed.

Lemma includes_cons x t rest :
  includes x (t :: rest) = String.eqb x t || includes x rest.
Proof. reflexivity. Qed.

Lemma transportName_eqb t :
  transportName t ↔
  negb (String.eqb t "stdio") && negb (String.eqb t "sse")
  && negb (String.eqb t "shttp") = false.
Proof.
  unfold transportName.
  destruct (String.eqb_spec t "stdio"), (String.eqb_spec t "sse"),
    (String.eqb_spec t "shttp"); simpl; split; intros; auto; try tauto;
    try discriminate.
Qed.

Lemma transportName_not_flag t :
  transportName t → String.eqb "--multi-tenant" t = false ∧ Js.falsy (Some t) = false.
Proof. by intros [-> | [-> | ->]]. Qed.

Lemma main_cons t rest e :
  transportName (toLowerCase t) →
  main (t :: rest) e
  = let multiTenant := multiTenantRequested rest e in
    if String.eqb (toLowerCase t) "stdio" then
      Stdio (if multiTenant
             then ["Multi-tenant mode is not supported for stdio transport"]
             else [])
    else if String.eqb (toLowerCase t) "sse" then Sse multiTenant
    else StreamableHttp multiTenant.
Proof.
  intros Ht. unfold main, multiTenantRequested. cbn [head fmap option_fmap option_map default from_option id].
  rewrite includes_cons.
  assert (String.eqb "--multi-tenant" t = false) as ->.
  { destruct (String.eqb_spec "--multi-tenant" t) as [<-|]; [|done].
    by destruct Ht as [? | [? | ?]]. }
  destruct (transportName_not_flag _ Ht) as [_ ->].
  pose proof (proj1 (transportName_eqb _) Ht) as ->. cbn [orb].
  destruct Ht as [-> | [-> | ->]]; reflexivity.
Qed.

Lemma main_exit args e :
  (¬ ∃ t rest, args = t :: rest ∧ transportName (toLowerCase t)) →
  main args e = Exit 1 usage.
Proof.
  intros Hn. destruct args as [|t rest]; [reflexivity|].
  unfold main. cbn [head fmap option_fmap option_map default from_option id].
  destruct (negb (String.eqb (toLowerCase t) "stdio")
            && negb (String.eqb (toLowerCase t) "sse")
            && negb (String.eqb (toLowerCase t) "shttp")) eqn:Hb.
  - by rewrite orb_true_r.
  - exfalso. apply Hn. exists t, rest. split; [done|]. by apply transportName_eqb.
Qed.

(** X14.  [main] either leaves with exit code 1 and the two usage lines
    or starts one server; it never returns having done neither.  It
    leaves exactly when the first argument is missing or, lower-cased,
    is none of "stdio", "sse" and "shttp", so also when the flag comes
    first.  Otherwise the server named by the first argument is started,
    multi-tenant when "--multi-tenant" is among the later arguments or
    MULTI_TENANT is "true"; the stdio server is started all the same and
    a warning is issued instead. *)
Theorem main_launches (args : list string) (e : gmap string string) :
  main args e ≠ Idle
  ∧ (main args e = Exit 1 usage
     ↔ ¬ ∃ t rest, args = t :: rest ∧ transportName (toLowerCase t))
  ∧ (∀ rest, main ("--multi-tenant" :: rest) e = Exit 1 usage)
  ∧ (∀ t rest, args = t :: rest → toLowerCase t = "sse" →
       main args e = Sse (multiTenantRequested rest e))
  ∧ (∀ t rest, args = t :: rest → toLowerCase t = "shttp" →
       main args e = StreamableHttp (multiTenantRequested rest e))
  ∧ (∀ t rest, args = t :: rest → toLowerCase t = "stdio" →
       main args e
       = Stdio (if multiTenantRequested rest e
                then ["Multi-tenant mode is not supported for stdio transport"]
                else [])).
Proof.
  assert ((∃ t rest, args = t :: rest ∧ transportName (toLowerCase t))
          ∨ ¬ ∃ t rest, args = t :: rest ∧ transportName (toLowerCase t)) as Hdec.
  { destruct args as [|t rest]; [right; by intros (? & ? & ? & _)|].
    destruct (negb (String.eqb (toLowerCase t) "stdio")
              && negb (String.eqb (toLowerCase t) "sse")
              && negb (String.eqb (toLowerCase t) "shttp")) eqn:Hb.
    - right. intros (t' & rest' & [= <- <-] & Ht).
      apply transportName_eqb in Ht. congruence.
    - left. exists t, rest. split; [done|]. by apply transportName_eqb. }
  split; [|split; [|split; [|split; [|split]]]].
  - destruct Hdec as [(t & rest & -> & Ht) | Hn].
    + rewrite (main_cons _ _ _ Ht). cbv zeta.
      destruct (String.eqb _ "stdio"); [done|]. by destruct (String.eqb _ "sse").
    + by rewrite main_exit.
  - split.
    + intros Hm (t & rest & -> & Ht). rewrite (main_cons _ _ _ Ht) in Hm.
      cbv zeta in Hm. destruct (String.eqb _ "stdio"); [done|].
      by destruct (String.eqb _ "sse").
    + apply main_exit.
  - reflexivity.
  - intros t rest -> Ht. rewrite main_cons by (rewrite Ht; right; by left).
    by rewrite Ht.
  - intros t rest -> Ht. rewrite main_cons by (rewrite Ht; right; by right).
    by rewrite Ht.
  - intros t rest -> Ht. rewrite main_cons by (rewrite Ht; by left).
    by rewrite Ht.
Qed.

Lemma main_launches_witness :
  main ["SSE"; "--verbose"; "--multi-tenant"] ∅ = Sse true
  ∧ main ["shttp"] {["MULTI_TENANT" := "TRUE"]} = StreamableHttp false
  ∧ main ["Stdio"] {["MULTI_TENANT" := "true"]}
    = Stdio ["Multi-tenant mode is not supported for stdio transport"].
Proof.
  split; [|split].
  - destruct (main_launches ["SSE"; "--verbose"; "--multi-tenant"] ∅)
      as (_ & _ & _ & H & _).
    apply (H "SSE" ["--verbose"; "--multi-tenant"]); reflexivity.
  - destruct (main_launches ["shttp"] {["MULTI_TENANT" := "TRUE"]})
      as (_ & _ & _ & _ & H & _).
    apply (H "shttp" []); reflexivity.
  - destruct (main_launches ["Stdio"] {["MULTI_TENANT" := "true"]})
      as (_ & _ & _ & _ & _ & H).
    apply (H "Stdio" []); reflexivity.
Defined.

(** X15.  The transport name is read without regard to case: writing
    the first argument in lower case changes nothing in what [main]
    does, whatever the other arguments and the environment. *)
Theorem main_case_insensitive (t : string) (rest : list string)
    (e : gmap string string) :
  main (toLowerCase t :: rest) e = main (t :: rest) e.
Proof.
  destruct (negb (String.eqb (toLowerCase t) "stdio")
            && negb (String.eqb (toLowerCase t) "sse")
            && negb (String.eqb (toLowerCase t) "shttp")) eqn:Hb.
  - rewrite !main_exit; [done| |].
    + intros (t' & rest' & [= <- <-] & Ht). apply transportName_eqb in Ht. congruence.
    + intros (t' & rest' & [= <- <-] & Ht). rewrite toLowerCase_idem in Ht.
      apply transportName_eqb in Ht. congruence.
  - apply transportName_eqb in Hb.
    rewrite !main_cons by (by rewrite ?toLowerCase_idem).
    by rewrite toLowerCase_idem.
Qed.

End MainFacts.
